(** * aws-crt-java: the native HTTP bridge

    A shallow embedding of [src/native/http_connection.c],
    [src/native/http_connection_manager.c] and the helpers of
    [src/native/crt.c] they call.

    The bridge is C code that talks to three outside parties: the JVM
    (through JNI), the aws-c-common allocator and mutex, and the aws-c-http
    connection, stream and connection-manager API.  None of them lives in this
    repository, so each outside call is recorded as an [event] in a
    chronological trace; what the bridge itself owns (its structs, the Java
    objects it builds, the pending Java exception) is explicit state. *)

From Stdlib Require Import ZArith List Lia Strings.Byte.
From stdpp Require Import base gmap list strings.

Local Open Scope Z_scope.

(** ** Machine integers *)

(** [uint16_t port = jni_port] and [(uint16_t)jni_port]. *)
Definition to_uint16 (z : Z) : Z := z mod 2 ^ 16.

(** [(size_t)x] on an LP64 platform. *)
Definition to_size_t (z : Z) : Z := z mod 2 ^ 64.

(** Ranges of the JNI argument types. *)
Definition is_jshort (z : Z) : Prop := - 2 ^ 15 <= z < 2 ^ 15.
Definition is_jint (z : Z) : Prop := - 2 ^ 31 <= z < 2 ^ 31.

(** ** Structs of the bridge

    Pointers, [jlong] handles and JNI references are integers; [0] is
    [NULL]. *)

(** [struct http_jni_connection] *)
Record http_jni_connection := mk_http_jni_connection {
  native_http_conn : Z;
  socket_options : Z;
  tls_options : Z;
  jvm : Z;
  java_http_conn : Z;
  disconnect_requested : bool
}.

(** [struct http_request_jni_async_callback] *)
Record http_request_jni_async_callback := mk_http_request_jni_async_callback {
  connection : Z;
  jni_http_callback_handler : Z;
  java_byte_buffer : Z
}.

(** [struct jni_byte_buf_pair], as the idle list knows it: the list links
    the [list_handle] members, so [list_handle] is the address of the node,
    [&buf_pair->list_handle], which the shutdown handler hands to
    [aws_mem_release]. *)
Record jni_byte_buf_pair := mk_jni_byte_buf_pair {
  native_buf : Z;   (* capacity the native aws_byte_buf was initialised with *)
  java_buf : Z;
  list_handle : Z
}.

(** [offsetof(struct jni_byte_buf_pair, list_handle)]: the node comes after
    the [aws_byte_buf] (four words) and the [jobject], 40 bytes into the
    block on an LP64 platform; [native_buf] is the first member, at the
    block's own address. *)
Definition offsetof_list_handle : Z := 40.

(** [AWS_CONTAINER_OF(node, struct jni_byte_buf_pair, list_handle)] *)
Definition pair_of_node (node : Z) : Z := node - offsetof_list_handle.

(** [struct jni_conn_manager].  The [rw_lock] field is an opaque
    [struct aws_mutex] and the first member: its address is the address of
    its manager, and its state is read off the trace. *)
Record jni_conn_manager := mk_jni_conn_manager {
  mgr_jvm : Z;
  java_conn_manager : Z;
  native_conn_manager : Z;
  max_connections : Z;
  buf_size : Z;
  idle_java_native_buf_pairs : list jni_byte_buf_pair
}.

(** [struct aws_http_header]: a name cursor and a value cursor. *)
Record aws_http_header := mk_aws_http_header {
  header_name : list byte;
  header_value : list byte
}.

(** What [aws_http_stream_get_incoming_response_status] yields on a stream:
    its return code, and the [int] found in [resp_status] afterwards (left
    unwritten, hence arbitrary, when the return code is not zero). *)
Record aws_http_stream := mk_aws_http_stream {
  get_status_err : Z;
  get_status_value : Z
}.

(** [struct aws_tls_connection_options], as far as the bridge fills it. *)
Record aws_tls_connection_options := mk_aws_tls_connection_options {
  tls_ctx : Z;
  tls_server_name : option (list byte)
}.

(** [struct aws_tls_connection_options tls_conn_options = {0};] *)
Definition tls_conn_options_zero : aws_tls_connection_options :=
  {| tls_ctx := 0; tls_server_name := None |}.

(** [struct aws_http_client_connection_options]; [co_tls_options] is a
    pointer, [None] for [NULL]. *)
Record aws_http_client_connection_options := mk_client_connection_options {
  co_bootstrap : Z;
  co_host_name : list byte;
  co_port : Z;
  co_socket_options : Z;
  co_tls_options : option aws_tls_connection_options;
  co_user_data : Z
}.

(** [struct aws_http_request_options] after [AWS_HTTP_REQUEST_OPTIONS_INIT];
    the five callbacks are always the five [s_*_fn] of the bridge and are
    left out. *)
Record aws_http_request_options := mk_request_options {
  ro_client_connection : Z;
  ro_method : list byte;
  ro_uri : list byte;
  ro_header_array : list aws_http_header;
  ro_user_data : Z
}.

(** [struct aws_http_connection_manager_options] *)
Record aws_http_connection_manager_options := mk_manager_options {
  mo_bootstrap : Z;
  mo_initial_window_size : Z;
  mo_socket_options : Z;
  mo_tls_connection_options : option aws_tls_connection_options;
  mo_host : list byte;
  mo_port : Z;
  mo_max_connections : Z;
  mo_shutdown_complete_user_data : Z
}.

(** ** Java side *)

(** Objects the bridge creates or reads through JNI. *)
Inductive jvalue :=
| JByteArray (data : list byte)
| JHeader (name value : Z)             (* HttpRequest$Header: two byte[] fields *)
| JObjectArray (elems : list Z)
| JByteBuffer (backing : Z)            (* ByteBuffer.wrap(byte[]) *)
| JDirectByteBuffer (address capacity : Z).   (* NewDirectByteBuffer(address, capacity) *)

(** Calls from native code into caller code ([CallVoidMethod] and
    [CallBooleanMethod] on a listener). *)
Inductive java_call :=
| onConnectionComplete (obj : Z) (error_code : Z)
| onConnectionShutdown (obj : Z) (error_code : Z)
| onHeaders (handler : Z) (resp_status : Z) (jHeaders : Z)
| onHeadersDone (handler : Z) (has_body : bool)
| onResponseBody (handler : Z) (jByteBuffer : Z)
| onResponseComplete (handler : Z) (error_code : Z)
| sendOutgoingBody (handler : Z) (jDirectByteBuffer : Z)
| onConnectionAcquired (obj : Z) (jni_connection : Z) (error_code : Z)
| onShutdownComplete (obj : Z).

(** ** Outside calls *)

Inductive event :=
| EvMemAcquire (addr : Z)
| EvMemRelease (addr : Z)
| EvByteBufInit (buf capacity : Z)
| EvByteBufCleanUp (buf : Z)
| EvNewGlobalRef (obj : Z)
| EvDeleteGlobalRef (obj : Z)
| EvGetStringUTFChars (chars : list byte)
| EvAttachCurrentThread (vm : Z)
| EvMutexInit (m : Z)
| EvMutexLock (m : Z)
| EvMutexUnlock (m : Z)
| EvMutexCleanUp (m : Z)
| EvCallJava (c : java_call)
| EvTlsInitFromCtx (ctx : Z)
| EvTlsSetServerName (name : list byte)
| EvTlsCleanUp
| EvHttpClientConnect (o : aws_http_client_connection_options)
| EvHttpConnectionClose (conn : Z)
| EvHttpStreamNewClientRequest (o : aws_http_request_options)
| EvConnManagerNew (o : aws_http_connection_manager_options) (result : Z)
| EvConnManagerRelease (m : Z)
| EvConnManagerAcquireConnection (m : Z) (user_data : Z)
| EvConnManagerReleaseConnection (m : Z) (conn : Z).

(** ** The world the bridge runs in *)

Record World := mkWorld {
  w_trace : list event;            (* outside calls so far, oldest first *)
  w_oracle : list bool;            (* results of the coming fallible calls;
                                      once exhausted every call succeeds *)
  w_next : positive;               (* next unused address / reference *)
  w_exception : option string;     (* pending Java exception, by the message
                                      the bridge raised it with *)
  w_jheap : gmap Z jvalue;
  w_conns : gmap Z http_jni_connection;
  w_callbacks : gmap Z http_request_jni_async_callback;
  w_managers : gmap Z jni_conn_manager;
  w_uninit : Z -> Z -> Z           (* [w_uninit a k]: what the [k]-th field of
                                      the block at [a] holds when the
                                      allocator hands the block out *)
}.

Definition set_trace (t : list event) (w : World) : World :=
  mkWorld t (w_oracle w) (w_next w) (w_exception w) (w_jheap w)
          (w_conns w) (w_callbacks w) (w_managers w) (w_uninit w).
Definition set_oracle (o : list bool) (w : World) : World :=
  mkWorld (w_trace w) o (w_next w) (w_exception w) (w_jheap w)
          (w_conns w) (w_callbacks w) (w_managers w) (w_uninit w).
Definition set_next (n : positive) (w : World) : World :=
  mkWorld (w_trace w) (w_oracle w) n (w_exception w) (w_jheap w)
          (w_conns w) (w_callbacks w) (w_managers w) (w_uninit w).
Definition set_exception (e : option string) (w : World) : World :=
  mkWorld (w_trace w) (w_oracle w) (w_next w) e (w_jheap w)
          (w_conns w) (w_callbacks w) (w_managers w) (w_uninit w).
Definition set_jheap (h : gmap Z jvalue) (w : World) : World :=
  mkWorld (w_trace w) (w_oracle w) (w_next w) (w_exception w) h
          (w_conns w) (w_callbacks w) (w_managers w) (w_uninit w).
Definition set_conns (c : gmap Z http_jni_connection) (w : World) : World :=
  mkWorld (w_trace w) (w_oracle w) (w_next w) (w_exception w) (w_jheap w)
          c (w_callbacks w) (w_managers w) (w_uninit w).
Definition set_callbacks (c : gmap Z http_request_jni_async_callback)
    (w : World) : World :=
  mkWorld (w_trace w) (w_oracle w) (w_next w) (w_exception w) (w_jheap w)
          (w_conns w) c (w_managers w) (w_uninit w).
Definition set_managers (m : gmap Z jni_conn_manager) (w : World) : World :=
  mkWorld (w_trace w) (w_oracle w) (w_next w) (w_exception w) (w_jheap w)
          (w_conns w) (w_callbacks w) m (w_uninit w).

(** A world in which nothing has happened yet; its allocator hands out
    cleared blocks. *)
Definition world0 : World :=
  mkWorld [] [] 1%positive None ∅ ∅ ∅ ∅ (fun _ _ => 0).

(** ** Running native code

    A native function either returns, or the process is gone: aborted by
    [AWS_FATAL_ASSERT], or through a [NULL] or dangling pointer. *)
Inductive outcome (A : Type) :=
| Done (a : A) (w : World)
| Fatal (w : World)
| Segv (w : World).
Arguments Done {A} a w.
Arguments Fatal {A} w.
Arguments Segv {A} w.

Definition M (A : Type) : Type := World -> outcome A.

Definition ret {A} (a : A) : M A := fun w => Done a w.

Definition bind {A B} (m : M A) (k : A -> M B) : M B :=
  fun w => match m w with
           | Done a w' => k a w'
           | Fatal w' => Fatal w'
           | Segv w' => Segv w'
           end.

Notation "'do' x <- m ; k" := (bind m (fun x => k))
  (at level 10, x name, m at level 100, k at level 200).
Notation "m ;; k" := (bind m (fun _ => k))
  (at level 100, k at level 200, right associativity).

(** [AWS_FATAL_ASSERT(cond)] *)
Definition AWS_FATAL_ASSERT (cond : bool) : M unit :=
  fun w => if cond then Done tt w else Fatal w.

Definition segv {A} : M A := fun w => Segv w.

Definition emit (e : event) : M unit :=
  fun w => Done tt (set_trace (w_trace w ++ [e]) w).

(** An address or reference not given out before.  Addresses name blocks
    and objects; how far two of them lie apart says nothing about sizes. *)
Definition fresh : M Z :=
  fun w => Done (Zpos (w_next w)) (set_next (Pos.succ (w_next w)) w).

(** The result of the next fallible outside call. *)
Definition oracle_next : M bool :=
  fun w => match w_oracle w with
           | [] => Done true w
           | b :: o => Done b (set_oracle o w)
           end.

(** *** aws-c-common *)

(** [aws_mem_acquire]: a fresh address, or [NULL]. *)
Definition aws_mem_acquire : M Z :=
  do ok <- oracle_next;
  if ok then (do a <- fresh; emit (EvMemAcquire a);; ret a) else ret 0.

Definition aws_mem_release (p : Z) : M unit := emit (EvMemRelease p).

(** [aws_byte_buf_init(buf, allocator, capacity)]; [true] for
    [AWS_OP_SUCCESS]. *)
Definition aws_byte_buf_init (buf capacity : Z) : M bool :=
  do ok <- oracle_next;
  if ok then (emit (EvByteBufInit buf capacity);; ret true) else ret false.

(** [aws_byte_buf_clean_up(buf)] *)
Definition aws_byte_buf_clean_up (buf : Z) : M unit :=
  emit (EvByteBufCleanUp buf).

(** [aws_mutex_init], [aws_mutex_lock], [aws_mutex_unlock] and
    [aws_mutex_clean_up] work on the mutex they are given the address of: at
    [NULL] the run ends. *)
Definition aws_mutex_init (m : Z) : M unit :=
  if m =? 0 then segv else emit (EvMutexInit m).
Definition aws_mutex_lock (m : Z) : M unit :=
  if m =? 0 then segv else emit (EvMutexLock m).
Definition aws_mutex_unlock (m : Z) : M unit :=
  if m =? 0 then segv else emit (EvMutexUnlock m).
Definition aws_mutex_clean_up (m : Z) : M unit :=
  if m =? 0 then segv else emit (EvMutexCleanUp m).

(** *** JNI *)

Definition NewGlobalRef (obj : Z) : M Z := emit (EvNewGlobalRef obj);; ret obj.
Definition DeleteGlobalRef (obj : Z) : M unit := emit (EvDeleteGlobalRef obj).

(** [GetJavaVM] always hands out the one VM of the process. *)
Definition the_java_vm : Z := -1.

Definition jnew (v : jvalue) : M Z :=
  do r <- fresh;
  fun w => Done r (set_jheap (<[r := v]> (w_jheap w)) w).

Definition jget (r : Z) : M jvalue :=
  fun w => match w_jheap w !! r with
           | Some v => Done v w
           | None => Segv w
           end.

Definition CallJava (c : java_call) : M unit := emit (EvCallJava c).

(** ** crt.c *)

(** The text [aws_jni_throw_runtime_exception] hands to [ThrowNew] for a
    message without conversion directives, which is what the bridge passes:
    the message cut to the 1023 characters of [buf], then
    ["%s (aws_last_error: %s)"] cut to the 1279 characters of [exception].
    [last_error] is what [aws_error_str(aws_last_error())] yields. *)
Definition exception_text (msg last_error : string) : string :=
  String.substring 0 1279
    (String.substring 0 1023 msg ++ " (aws_last_error: " ++ last_error ++ ")").

(** [aws_jni_throw_runtime_exception]: [ThrowNew] leaves the exception
    pending; the native function goes on until it returns.  [w_exception]
    keeps the message the bridge passed; the text of the Java exception is
    [exception_text] of it and of what aws-c-common reports as the last
    error. *)
Definition aws_jni_throw_runtime_exception (msg : string) : M unit :=
  fun w => Done tt (set_exception (Some msg) w).

(** [aws_jni_get_thread_env]: [AttachCurrentThreadAsDaemon]. *)
Definition aws_jni_get_thread_env (vm : Z) : M unit :=
  emit (EvAttachCurrentThread vm).

(** [aws_jni_byte_cursor_from_jstring]; a [jstring] is given by its UTF
    bytes. *)
Definition aws_jni_byte_cursor_from_jstring (str : list byte) : M (list byte) :=
  emit (EvGetStringUTFChars str);; ret str.

(** [aws_jni_byte_cursor_from_jbyteArray] *)
Definition aws_jni_byte_cursor_from_jbyteArray (array : Z) : M (list byte) :=
  do v <- jget array;
  match v with
  | JByteArray data => ret data
  | _ => segv
  end.

(** [aws_jni_byte_array_from_cursor]: [NewByteArray] and
    [SetByteArrayRegion]. *)
Definition aws_jni_byte_array_from_cursor (native_data : list byte) : M Z :=
  jnew (JByteArray native_data).

(** [aws_jni_byte_buffer_copy_from_cursor] *)
Definition aws_jni_byte_buffer_copy_from_cursor (native_data : list byte) : M Z :=
  do jArray <- aws_jni_byte_array_from_cursor native_data;
  jnew (JByteBuffer jArray).

(** [aws_jni_direct_byte_buffer_from_cursor]: [NewDirectByteBuffer] on the
    cursor's [ptr] and [len]. *)
Definition aws_jni_direct_byte_buffer_from_cursor (ptr len : Z) : M Z :=
  jnew (JDirectByteBuffer ptr len).

(** Modelled from the spec: [jni_byte_buffer_copy_from_cursor] is declared
    in [crt.h] ("Creates a Java ByteBuffer from a native aws_byte_cursor") and
    called by [s_on_incoming_body_fn], and defined nowhere in the sources at
    hand; [crt.c] defines [aws_jni_byte_buffer_copy_from_cursor], under
    another name.  The spec has each body-chunk event deliver a buffer of the
    received bytes: the call yields a [ByteBuffer] over a Java array of the
    cursor's bytes. *)
Definition jni_byte_buffer_copy_from_cursor (native_data : list byte) : M Z :=
  do jArray <- jnew (JByteArray native_data);
  jnew (JByteBuffer jArray).

(** Modelled from the spec: [jni_direct_byte_buffer_from_cursor] is declared
    in [crt.h] ("Creates a Java DirectByteBuffer from a native
    aws_byte_cursor") and called by [s_stream_outgoing_body_fn], and defined
    nowhere in the sources at hand.  The spec has the outgoing-body callback
    fill a shared write buffer: the call yields a direct [ByteBuffer] over
    the cursor's memory. *)
Definition jni_direct_byte_buffer_from_cursor (ptr len : Z) : M Z :=
  jnew (JDirectByteBuffer ptr len).

(** ** Memory owned by the bridge

    A struct lives in the map of its type from the moment
    [aws_mem_acquire] returned its address.  [aws_mem_acquire] does not clear
    memory: a field the code has not written yet holds what the block held,
    [w_uninit w p k] for the [k]-th field of the block at [p].
    Reading or writing through [NULL] or through an address that holds no
    such struct ends the run. *)

Definition acquire_conn : M Z :=
  do p <- aws_mem_acquire;
  if p =? 0 then ret 0
  else fun w =>
    let u := w_uninit w p in
    Done p (set_conns
              (<[p := mk_http_jni_connection (u 0) (u 1) (u 2) (u 3) (u 4)
                        (negb (u 5 =? 0))]> (w_conns w)) w).

Definition load_conn (p : Z) : M http_jni_connection :=
  fun w => if p =? 0 then Segv w
           else match w_conns w !! p with
                | Some c => Done c w
                | None => Segv w
                end.

Definition update_conn (p : Z) (f : http_jni_connection -> http_jni_connection)
    : M unit :=
  do c <- load_conn p;
  fun w => Done tt (set_conns (<[p := f c]> (w_conns w)) w).

Definition free_conn (p : Z) : M unit :=
  aws_mem_release p;;
  fun w => Done tt (set_conns (delete p (w_conns w)) w).

Definition acquire_callback : M Z :=
  do p <- aws_mem_acquire;
  if p =? 0 then ret 0
  else fun w =>
    let u := w_uninit w p in
    Done p (set_callbacks
              (<[p := mk_http_request_jni_async_callback (u 0) (u 1) (u 2)]>
                 (w_callbacks w)) w).

Definition load_callback (p : Z) : M http_request_jni_async_callback :=
  fun w => if p =? 0 then Segv w
           else match w_callbacks w !! p with
                | Some c => Done c w
                | None => Segv w
                end.

Definition update_callback (p : Z)
    (f : http_request_jni_async_callback -> http_request_jni_async_callback)
    : M unit :=
  do c <- load_callback p;
  fun w => Done tt (set_callbacks (<[p := f c]> (w_callbacks w)) w).

(** ** http_connection.c *)

Definition jni_http_request_async_callback_new
    (connection_ptr java_callback_handler : Z) : M Z :=
  do callback <- acquire_callback;
  if callback =? 0 then
    (* caller will throw when they get a null *)
    ret 0
  else
    do conn <- load_conn connection_ptr;
    aws_jni_get_thread_env (jvm conn);;
    do handler <- (if java_callback_handler =? 0 then ret 0
                   else NewGlobalRef java_callback_handler);
    update_callback callback (fun c =>
      mk_http_request_jni_async_callback connection_ptr handler
                                         (java_byte_buffer c));;
    ret callback.

Definition s_on_http_conn_setup (conn error_code user_data : Z) : M unit :=
  update_conn user_data (fun c =>
    mk_http_jni_connection conn (socket_options c) (tls_options c) (jvm c)
                           (java_http_conn c) (disconnect_requested c));;
  do http_jni_conn <- load_conn user_data;
  if java_http_conn http_jni_conn =? 0 then ret tt
  else
    aws_jni_get_thread_env (jvm http_jni_conn);;
    CallJava (onConnectionComplete (java_http_conn http_jni_conn) error_code).

Definition s_on_http_conn_shutdown (conn error_code user_data : Z) : M unit :=
  do http_jni_conn <- load_conn user_data;
  if java_http_conn http_jni_conn =? 0 then ret tt
  else
    aws_jni_get_thread_env (jvm http_jni_conn);;
    CallJava (onConnectionShutdown (java_http_conn http_jni_conn) error_code).

(** [int use_tls = !(port == 80 || port == 8080);] *)
Definition use_tls_of_port (port : Z) : bool :=
  negb ((port =? 80) || (port =? 8080)).

Definition httpConnectionNew
    (http_conn_jobject jni_client_bootstrap jni_socket_options jni_tls_ctx : Z)
    (jni_endpoint : list byte) (jni_port : Z) : M Z :=
  if jni_client_bootstrap =? 0 then
    aws_jni_throw_runtime_exception
      "HttpConnection.httpConnectionNew: jni_client_bootstrap must not be null";;
    ret 0
  else if jni_socket_options =? 0 then
    aws_jni_throw_runtime_exception
      "HttpConnection.httpConnectionNew: jni_socket_options must not be null";;
    ret 0
  else
    do endpoint <- aws_jni_byte_cursor_from_jstring jni_endpoint;
    let port := to_uint16 jni_port in
    if port =? 0 then
      aws_jni_throw_runtime_exception
        "HttpConnection.httpConnectionNew: Port must be between 1 and 65535";;
      ret 0
    else
      (* TODO: Better TLS Detection? *)
      let use_tls := use_tls_of_port port in
      if use_tls && (jni_tls_ctx =? 0) then
        aws_jni_throw_runtime_exception
          "HttpConnection.httpConnectionNew: jni_tls_ctx_options must not be null";;
        ret 0
      else
        do tls_conn_options <-
          (if use_tls then
             emit (EvTlsInitFromCtx jni_tls_ctx);;
             emit (EvTlsSetServerName endpoint);;
             ret (mk_aws_tls_connection_options jni_tls_ctx (Some endpoint))
           else ret tls_conn_options_zero);
        do http_jni_conn <- acquire_conn;
        if http_jni_conn =? 0 then
          aws_jni_throw_runtime_exception
            "HttpConnection.httpConnectionNew: Out of memory allocating JNI connection";;
          (* error_cleanup: nothing was acquired, nothing to release *)
          ret 0
        else
          do gref <- NewGlobalRef http_conn_jobject;
          update_conn http_jni_conn (fun c =>
            mk_http_jni_connection (native_http_conn c) (socket_options c)
              (tls_options c) the_java_vm gref (disconnect_requested c));;
          emit (EvHttpClientConnect
                  {| co_bootstrap := jni_client_bootstrap;
                     co_host_name := endpoint;
                     co_port := port;
                     co_socket_options := jni_socket_options;
                     co_tls_options := Some tls_conn_options;
                     co_user_data := http_jni_conn |});;
          (if use_tls then emit EvTlsCleanUp else ret tt);;
          ret http_jni_conn.

Definition httpConnectionClose (jni_connection : Z) : M unit :=
  update_conn jni_connection (fun c =>
    mk_http_jni_connection (native_http_conn c) (socket_options c)
      (tls_options c) (jvm c) (java_http_conn c) true);;
  do http_jni_conn <- load_conn jni_connection;
  emit (EvHttpConnectionClose (native_http_conn http_jni_conn)).

Definition httpConnectionDestroy (jni_connection : Z) : M unit :=
  do http_jni_conn <- load_conn jni_connection;
  (if java_http_conn http_jni_conn =? 0 then ret tt
   else
     DeleteGlobalRef (java_http_conn http_jni_conn);;
     update_conn jni_connection (fun c =>
       mk_http_jni_connection (native_http_conn c) (socket_options c)
         (tls_options c) (jvm c) 0 (disconnect_requested c)));;
  free_conn jni_connection.

(** The body of the [for] loop of [s_java_headers_array_from_native], once
    per native header.  The new [Header] object gets its two fields and is
    then dropped: [myArray] is not written. *)
Fixpoint s_java_headers_array_from_native_loop
    (header_array : list aws_http_header) : M unit :=
  match header_array with
  | [] => ret tt
  | h :: rest =>
      do jHeader <- jnew (JHeader 0 0);
      do actual_name <- aws_jni_byte_array_from_cursor (header_name h);
      do actual_value <- aws_jni_byte_array_from_cursor (header_value h);
      (* Overwrite with actual values *)
      (fun w => Done tt
         (set_jheap (<[jHeader := JHeader actual_name actual_value]> (w_jheap w)) w));;
      s_java_headers_array_from_native_loop rest
  end.

(** [header_array] carries its own length, [num_headers]. *)
Definition s_java_headers_array_from_native
    (callback : Z) (header_array : list aws_http_header) : M Z :=
  do cb <- load_callback callback;
  do conn <- load_conn (connection cb);
  aws_jni_get_thread_env (jvm conn);;
  (* NewObjectArray(env, num_headers, header_class, NULL) *)
  do myArray <- jnew (JObjectArray (replicate (length header_array) 0));
  s_java_headers_array_from_native_loop header_array;;
  ret myArray.

Definition s_on_incoming_headers_fn
    (stream : aws_http_stream) (header_array : list aws_http_header)
    (user_data : Z) : M unit :=
  do callback <- load_callback user_data;
  do conn <- load_conn (connection callback);
  aws_jni_get_thread_env (jvm conn);;
  do jHeaders <- s_java_headers_array_from_native user_data header_array;
  let resp_status := get_status_value stream in
  let err_code := get_status_err stream in
  (if err_code =? 0 then ret tt
   else
     (* TODO: Is this valid? *)
     CallJava (onResponseComplete (jni_http_callback_handler callback) err_code));;
  CallJava (onHeaders (jni_http_callback_handler callback) resp_status jHeaders).

Definition s_on_incoming_header_block_done_fn
    (stream : aws_http_stream) (has_body : bool) (user_data : Z) : M unit :=
  do callback <- load_callback user_data;
  do conn <- load_conn (connection callback);
  aws_jni_get_thread_env (jvm conn);;
  CallJava (onHeadersDone (jni_http_callback_handler callback) has_body).

Definition s_on_stream_complete_fn
    (stream : aws_http_stream) (error_code : Z) (user_data : Z) : M unit :=
  do callback <- load_callback user_data;
  do conn <- load_conn (connection callback);
  aws_jni_get_thread_env (jvm conn);;
  CallJava (onResponseComplete (jni_http_callback_handler callback) error_code).

Definition s_on_incoming_body_fn
    (stream : aws_http_stream) (data : list byte) (user_data : Z) : M unit :=
  do callback <- load_callback user_data;
  do conn <- load_conn (connection callback);
  aws_jni_get_thread_env (jvm conn);;
  (* TODO: Use DirectByteBuffer instead of copy? *)
  do jByteBuffer <- jni_byte_buffer_copy_from_cursor data;
  CallJava (onResponseBody (jni_http_callback_handler callback) jByteBuffer).

Inductive aws_http_outgoing_body_state :=
| AWS_HTTP_OUTGOING_BODY_IN_PROGRESS
| AWS_HTTP_OUTGOING_BODY_DONE.

(** [buf_ptr] and [buf_len] are the cursor [aws_byte_cursor_from_buf(buf)];
    [isDone] is what the listener's [sendOutgoingBody] answers. *)
Definition s_stream_outgoing_body_fn
    (stream : aws_http_stream) (buf_ptr buf_len : Z) (user_data : Z)
    (isDone : bool)
    : M aws_http_outgoing_body_state :=
  do callback <- load_callback user_data;
  do conn <- load_conn (connection callback);
  aws_jni_get_thread_env (jvm conn);;
  do jDirectByteBuffer <- jni_direct_byte_buffer_from_cursor buf_ptr buf_len;
  CallJava (sendOutgoingBody (jni_http_callback_handler callback) jDirectByteBuffer);;
  if isDone then ret AWS_HTTP_OUTGOING_BODY_DONE
  else ret AWS_HTTP_OUTGOING_BODY_IN_PROGRESS.

(** The [for] loop of [httpConnectionExecuteRequest] that reads the Java
    [Header] objects into native headers. *)
Fixpoint read_java_headers (elems : list Z) : M (list aws_http_header) :=
  match elems with
  | [] => ret []
  | jHeader :: rest =>
      do v <- jget jHeader;
      match v with
      | JHeader jname jvalue =>
          do name <- aws_jni_byte_cursor_from_jbyteArray jname;
          do value <- aws_jni_byte_cursor_from_jbyteArray jvalue;
          do headers <- read_java_headers rest;
          ret (mk_aws_http_header name value :: headers)
      | _ => segv
      end
  end.

Definition httpConnectionExecuteRequest
    (jni_connection : Z) (jni_method jni_uri : list byte)
    (jni_headers jni_callback_handler : Z) : M unit :=
  if jni_connection =? 0 then
    aws_jni_throw_runtime_exception "HttpConnection.ExecuteRequest: Invalid connection"
  else if jni_callback_handler =? 0 then
    aws_jni_throw_runtime_exception "HttpConnection.ExecuteRequest: Invalid handler"
  else
    do callback_handler <-
      jni_http_request_async_callback_new jni_connection jni_callback_handler;
    if callback_handler =? 0 then
      aws_jni_throw_runtime_exception
        "HttpConnection.ExecuteRequest: Unable to allocate handler"
    else
      do method <- aws_jni_byte_cursor_from_jstring jni_method;
      do uri <- aws_jni_byte_cursor_from_jstring jni_uri;
      do arr <- jget jni_headers;
      match arr with
      | JObjectArray elems =>
          do headers <- read_java_headers elems;
          emit (EvHttpStreamNewClientRequest
                  {| ro_client_connection := 0;
                     ro_method := method;
                     ro_uri := uri;
                     ro_header_array := headers;
                     ro_user_data := callback_handler |})
      | _ => segv
      end.

(** *** The stream callbacks as aws-c-http invokes them

    [httpConnectionExecuteRequest] registers [s_on_incoming_headers_fn],
    [s_on_incoming_header_block_done_fn], [s_on_incoming_body_fn] and
    [s_on_stream_complete_fn] with the request's [user_data]; the native
    library then calls them, one native event at a time. *)
Inductive stream_callback :=
| on_response_headers (stream : aws_http_stream) (header_array : list aws_http_header)
| on_response_header_block_done (stream : aws_http_stream) (has_body : bool)
| on_response_body (stream : aws_http_stream) (data : list byte)
| on_complete (stream : aws_http_stream) (error_code : Z).

Definition invoke (user_data : Z) (cb : stream_callback) : M unit :=
  match cb with
  | on_response_headers s hs => s_on_incoming_headers_fn s hs user_data
  | on_response_header_block_done s b => s_on_incoming_header_block_done_fn s b user_data
  | on_response_body s d => s_on_incoming_body_fn s d user_data
  | on_complete s e => s_on_stream_complete_fn s e user_data
  end.

Fixpoint invoke_all (user_data : Z) (cbs : list stream_callback) : M unit :=
  match cbs with
  | [] => ret tt
  | cb :: rest => invoke user_data cb;; invoke_all user_data rest
  end.

(** ** Reading traces *)

(** The calls into caller code, in order. *)
Definition java_calls (t : list event) : list java_call :=
  omap (fun e => match e with EvCallJava c => Some c | _ => None end) t.

Definition is_stream_complete (c : java_call) : bool :=
  match c with onResponseComplete _ _ => true | _ => false end.

(** Headers-received, headers-done and body-chunk deliveries. *)
Definition is_stream_data (c : java_call) : bool :=
  match c with
  | onHeaders _ _ _ | onHeadersDone _ _ | onResponseBody _ _ => true
  | _ => false
  end.

Definition count_stream_complete (cs : list java_call) : nat :=
  length (filter (fun c => is_stream_complete c = true) cs).

(** No headers-received, headers-done or body-chunk delivery comes after a
    stream-complete delivery. *)
Fixpoint complete_is_terminal (cs : list java_call) : bool :=
  match cs with
  | [] => true
  | c :: rest =>
      (if is_stream_complete c then forallb (fun d => negb (is_stream_data d)) rest
       else true) && complete_is_terminal rest
  end.

(** The native callback is the stream's completion callback. *)
Definition is_on_complete (cb : stream_callback) : bool :=
  match cb with on_complete _ _ => true | _ => false end.

(** The status query of a headers callback succeeds. *)
Definition status_known (cb : stream_callback) : bool :=
  match cb with
  | on_response_headers s _ => get_status_err s =? 0
  | _ => true
  end.

(** The call on the listener [handler] that answers to a native callback. *)
Definition answers (handler : Z) (cb : stream_callback) (c : java_call)
    : bool :=
  match cb, c with
  | on_response_headers _ _, onHeaders h _ _ => h =? handler
  | on_response_header_block_done _ b, onHeadersDone h b' =>
      (h =? handler) && Bool.eqb b b'
  | on_response_body _ _, onResponseBody h _ => h =? handler
  | on_complete _ e, onResponseComplete h e' => (h =? handler) && (e =? e')
  | _, _ => false
  end.

(** The outcome of a run, whatever way it ended. *)
Definition final_world {A} (o : outcome A) : World :=
  match o with Done _ w | Fatal w | Segv w => w end.

Definition returns {A} (o : outcome A) : option A :=
  match o with Done a _ => Some a | _ => None end.

(** ** http_connection_manager.c *)

(** The list of a new manager is not read before [aws_linked_list_init]
    has made it the empty list. *)
Definition acquire_mgr : M Z :=
  do p <- aws_mem_acquire;
  if p =? 0 then ret 0
  else fun w =>
    let u := w_uninit w p in
    Done p (set_managers
              (<[p := mk_jni_conn_manager (u 1) (u 2) (u 3) (u 4) (u 5) []]>
                 (w_managers w)) w).

Definition load_mgr (p : Z) : M jni_conn_manager :=
  fun w => if p =? 0 then Segv w
           else match w_managers w !! p with
                | Some m => Done m w
                | None => Segv w
                end.

Definition update_mgr (p : Z) (f : jni_conn_manager -> jni_conn_manager) : M unit :=
  do m <- load_mgr p;
  fun w => Done tt (set_managers (<[p := f m]> (w_managers w)) w).

Definition free_mgr (p : Z) : M unit :=
  aws_mem_release p;;
  fun w => Done tt (set_managers (delete p (w_managers w)) w).

Definition set_pairs (l : list jni_byte_buf_pair) (m : jni_conn_manager)
    : jni_conn_manager :=
  mk_jni_conn_manager (mgr_jvm m) (java_conn_manager m) (native_conn_manager m)
                      (max_connections m) (buf_size m) l.

Definition set_native_conn_manager (n : Z) (m : jni_conn_manager)
    : jni_conn_manager :=
  mk_jni_conn_manager (mgr_jvm m) (java_conn_manager m) n
                      (max_connections m) (buf_size m)
                      (idle_java_native_buf_pairs m).

(** The [while] loop of the shutdown handler: pop the front node, find its
    pair, drop the Java reference, clean the pair's native buffer up, release
    the node, count.  What [aws_mem_release] gets is [node], not [pair]. *)
Fixpoint drain_pairs (mgr : Z) (pairs : list jni_byte_buf_pair) (num_nodes : Z)
    : M Z :=
  match pairs with
  | [] => ret num_nodes
  | buf_pair :: rest =>
      update_mgr mgr (set_pairs rest);;
      let node := list_handle buf_pair in
      let pair := pair_of_node node in
      DeleteGlobalRef (java_buf buf_pair);;
      aws_byte_buf_clean_up pair;;
      aws_mem_release node;;
      drain_pairs mgr rest (num_nodes + 1)
  end.

(** [&jni_conn_manager->rw_lock] is address arithmetic: the mutex calls get
    the address whether or not a manager lives there, so the last call gets
    the address of the block released just before. *)
Definition s_on_http_conn_manager_shutdown_complete_callback (user_data : Z)
    : M unit :=
  aws_mutex_lock user_data;;
  do jni_conn_manager <- load_mgr user_data;
  aws_jni_get_thread_env (mgr_jvm jni_conn_manager);;
  CallJava (onShutdownComplete (java_conn_manager jni_conn_manager));;
  do num_nodes <- drain_pairs user_data
                    (idle_java_native_buf_pairs jni_conn_manager) 0;
  (* Make sure we free'd the same number of Buffers that we allocated *)
  AWS_FATAL_ASSERT (max_connections jni_conn_manager =? num_nodes);;
  (* We're done with this callback data, free it. *)
  DeleteGlobalRef (java_conn_manager jni_conn_manager);;
  free_mgr user_data;;
  aws_mutex_clean_up user_data.

(** Modelled from the spec: [aws_jni_direct_byte_buffer_from_byte_buf] is
    called by [aws_push_new_native_java_buf_pair] and defined nowhere in the
    sources at hand.  The spec has each native buffer paired with a
    caller-visible zero-copy view of the same memory, and a failure to
    produce one is fatal: the view is a direct [ByteBuffer] over the memory
    of the [aws_byte_buf] at [buf], of the buffer's capacity, or [NULL]. *)
Definition aws_jni_direct_byte_buffer_from_byte_buf (buf capacity : Z) : M Z :=
  do ok <- oracle_next;
  if ok then jnew (JDirectByteBuffer buf capacity) else ret 0.

(** [list] is [&jni_conn_manager->idle_java_native_buf_pairs]; it is given
    by the manager it belongs to. *)
Definition aws_push_new_native_java_buf_pair (list_owner body_buf_size : Z)
    : M unit :=
  do buf_pair <- aws_mem_acquire;
  AWS_FATAL_ASSERT (negb (buf_pair =? 0));;
  do result <- aws_byte_buf_init buf_pair body_buf_size;
  AWS_FATAL_ASSERT result;;
  do java_buf <- aws_jni_direct_byte_buffer_from_byte_buf buf_pair body_buf_size;
  AWS_FATAL_ASSERT (negb (java_buf =? 0));;
  (* Tell the JVM we have a reference to the Java ByteBuffer *)
  do gref <- NewGlobalRef java_buf;
  update_mgr list_owner (fun m =>
    set_pairs (mk_jni_byte_buf_pair body_buf_size gref
                 (buf_pair + offsetof_list_handle)
                 :: idle_java_native_buf_pairs m) m).

(** [for (int i = 0; i < jni_conn_manager->max_connections; i++)], with the
    number of rounds left as the argument.  [max_connections] comes from a
    positive [jint], so [i] does not overflow. *)
Fixpoint push_buf_pairs (rounds : nat) (mgr body_buf_size : Z) : M unit :=
  match rounds with
  | O => ret tt
  | S k =>
      aws_push_new_native_java_buf_pair mgr body_buf_size;;
      push_buf_pairs k mgr body_buf_size
  end.

(** [aws_http_connection_manager_new]: a native manager, or [NULL]. *)
Definition aws_http_connection_manager_new
    (options : aws_http_connection_manager_options) : M Z :=
  do ok <- oracle_next;
  do conn_manager <- (if ok then fresh else ret 0);
  emit (EvConnManagerNew options conn_manager);;
  ret conn_manager.

Definition httpConnectionManagerNew
    (conn_manager_jobject jni_client_bootstrap jni_socket_options jni_tls_ctx : Z)
    (jni_buf_size jni_window_size : Z) (jni_endpoint : list byte)
    (jni_port jni_max_conns : Z) : M Z :=
  if jni_client_bootstrap =? 0 then
    aws_jni_throw_runtime_exception "ClientBootstrap can't be null";;
    ret 0
  else if jni_socket_options =? 0 then
    aws_jni_throw_runtime_exception "SocketOptions can't be null";;
    ret 0
  else
    do endpoint <- aws_jni_byte_cursor_from_jstring jni_endpoint;
    if (jni_port <=? 0) || (65535 <? jni_port) then
      aws_jni_throw_runtime_exception "Port must be between 1 and 65535";;
      ret 0
    else if jni_window_size <=? 0 then
      aws_jni_throw_runtime_exception "Window Size must be > 0";;
      ret 0
    else if jni_max_conns <=? 0 then
      aws_jni_throw_runtime_exception "Max Connections must be > 0";;
      ret 0
    else
      let port := to_uint16 jni_port in
      let use_tls := negb (jni_tls_ctx =? 0) in
      do tls_conn_options <-
        (if use_tls then
           emit (EvTlsInitFromCtx jni_tls_ctx);;
           emit (EvTlsSetServerName endpoint);;
           ret (mk_aws_tls_connection_options jni_tls_ctx (Some endpoint))
         else ret tls_conn_options_zero);
      do jni_conn_manager <- acquire_mgr;
      aws_mutex_init jni_conn_manager;;
      aws_mutex_lock jni_conn_manager;;
      do gref <- NewGlobalRef conn_manager_jobject;
      update_mgr jni_conn_manager (fun m =>
        mk_jni_conn_manager (mgr_jvm m) gref (native_conn_manager m)
          (to_size_t jni_max_conns) (to_size_t jni_buf_size)
          (* Setup the Linked List *)
          []);;
      push_buf_pairs (Z.to_nat (to_size_t jni_max_conns)) jni_conn_manager
                     (to_size_t jni_buf_size);;
      update_mgr jni_conn_manager (fun m =>
        mk_jni_conn_manager the_java_vm (java_conn_manager m)
          (native_conn_manager m) (max_connections m) (buf_size m)
          (idle_java_native_buf_pairs m));;
      do conn_manager <- aws_http_connection_manager_new
        {| mo_bootstrap := jni_client_bootstrap;
           mo_initial_window_size := to_size_t jni_window_size;
           mo_socket_options := jni_socket_options;
           mo_tls_connection_options :=
             if use_tls then Some tls_conn_options else None;
           mo_host := endpoint;
           mo_port := port;
           mo_max_connections := to_size_t jni_max_conns;
           mo_shutdown_complete_user_data := jni_conn_manager |};
      update_mgr jni_conn_manager (set_native_conn_manager conn_manager);;
      aws_mutex_unlock jni_conn_manager;;
      (if use_tls then emit EvTlsCleanUp else ret tt);;
      ret jni_conn_manager.

Definition httpConnectionManagerRelease (jni_conn_manager_ptr : Z) : M unit :=
  if jni_conn_manager_ptr =? 0 then
    aws_jni_throw_runtime_exception "Connection Manager can't be null"
  else
    aws_mutex_lock jni_conn_manager_ptr;;
    do jni_conn_manager <- load_mgr jni_conn_manager_ptr;
    let native := native_conn_manager jni_conn_manager in
    update_mgr jni_conn_manager_ptr (set_native_conn_manager 0);;
    emit (EvConnManagerRelease native);;
    aws_mutex_unlock jni_conn_manager_ptr.

Definition s_on_http_conn_acquisition_callback
    (conn error_code user_data : Z) : M unit :=
  do jni_conn_manager <- load_mgr user_data;
  aws_jni_get_thread_env (mgr_jvm jni_conn_manager);;
  CallJava (onConnectionAcquired (java_conn_manager jni_conn_manager)
                                 conn error_code).

Definition httpConnectionManagerAcquireConnection
    (conn_manager_jobject jni_conn_manager_ptr : Z) : M unit :=
  if jni_conn_manager_ptr =? 0 then
    aws_jni_throw_runtime_exception "Connection Manager can't be null"
  else
    do jni_conn_manager <- load_mgr jni_conn_manager_ptr;
    emit (EvConnManagerAcquireConnection
            (native_conn_manager jni_conn_manager) jni_conn_manager_ptr).

Definition httpConnectionManagerReleaseConnection
    (jni_conn_manager jni_conn : Z) : M unit :=
  if jni_conn_manager =? 0 then
    aws_jni_throw_runtime_exception "Connection Manager can't be null"
  else if jni_conn =? 0 then
    aws_jni_throw_runtime_exception "Connection can't be null"
  else
    emit (EvConnManagerReleaseConnection jni_conn_manager jni_conn).

(** ** Reading traces, continued *)

(** The calls into caller code made while some mutex is held; [held] lists
    the mutexes locked and not yet unlocked. *)
Fixpoint calls_under_lock (held : list Z) (t : list event) : list java_call :=
  match t with
  | [] => []
  | EvMutexLock m :: rest => calls_under_lock (m :: held) rest
  | EvMutexUnlock m :: rest =>
      calls_under_lock (filter (fun x => x <> m) held) rest
  | EvCallJava c :: rest =>
      match held with
      | [] => calls_under_lock held rest
      | _ :: _ => c :: calls_under_lock held rest
      end
  | _ :: rest => calls_under_lock held rest
  end.

(** How often an event of a given kind occurs. *)
Definition count_events (p : event -> bool) (t : list event) : nat :=
  length (filter (fun e => p e = true) t).

Definition is_mem_acquire (e : event) : bool :=
  match e with EvMemAcquire _ => true | _ => false end.
Definition is_mem_release (e : event) : bool :=
  match e with EvMemRelease _ => true | _ => false end.
Definition is_byte_buf_init (e : event) : bool :=
  match e with EvByteBufInit _ _ => true | _ => false end.

(** The outside calls the shutdown handler makes to free a list of pairs. *)
Definition drain_events (pairs : list jni_byte_buf_pair) : list event :=
  flat_map (fun p => [EvDeleteGlobalRef (java_buf p);
                      EvByteBufCleanUp (pair_of_node (list_handle p));
                      EvMemRelease (list_handle p)]) pairs.


(** ** Reading the Java heap *)

Fixpoint bytes_eqb (a b : list byte) : bool :=
  match a, b with
  | [], [] => true
  | x :: a', y :: b' => Byte.eqb x y && bytes_eqb a' b'
  | _, _ => false
  end.

(** [h] refers to a [Header] object whose [name] and [value] fields refer to
    byte arrays with the given contents. *)
Definition is_header (heap : gmap Z jvalue) (name value : list byte) (h : Z)
    : bool :=
  match heap !! h with
  | Some (JHeader n v) =>
      match heap !! n, heap !! v with
      | Some (JByteArray dn), Some (JByteArray dv) =>
          bytes_eqb dn name && bytes_eqb dv value
      | _, _ => false
      end
  | _ => false
  end.

(** The Java array [arr] has an element that is such a header. *)
Definition array_has_header (heap : gmap Z jvalue) (arr : Z)
    (name value : list byte) : bool :=
  match heap !! arr with
  | Some (JObjectArray elems) => existsb (is_header heap name value) elems
  | _ => false
  end.

(** ** A sample session

    A connection to port 443 (handle [1]) on which one request was submitted
    with listener [55] (request context [2]); a pool of two connections
    (handle [1]). *)

Definition sample_connection : World :=
  final_world (httpConnectionNew 5 7 8 9 [] 443 world0).

Definition sample_request : World :=
  final_world (jni_http_request_async_callback_new 1 55 sample_connection).

Definition x_test_header : aws_http_header :=
  mk_aws_http_header (String.list_byte_of_string "X-Test")
                     (String.list_byte_of_string "1").

Definition sample_pool : World :=
  final_world (httpConnectionManagerNew 50 7 8 0 1024 16 [] 443 2 world0).

(** ** Reading traces: resources and locks *)

Definition is_delete_global_ref (e : event) : bool :=
  match e with EvDeleteGlobalRef _ => true | _ => false end.

(** The outside calls construction makes for a list of pairs. *)
Definition alloc_events (pairs : list jni_byte_buf_pair) : list event :=
  flat_map (fun p => [EvMemAcquire (pair_of_node (list_handle p));
                      EvByteBufInit (pair_of_node (list_handle p)) (native_buf p);
                      EvNewGlobalRef (java_buf p)]) pairs.

(** The call that gives back what a call took. *)
Definition undo (e : event) : option event :=
  match e with
  | EvMemAcquire a => Some (EvMemRelease a)
  | EvByteBufInit b _ => Some (EvByteBufCleanUp b)
  | EvNewGlobalRef o => Some (EvDeleteGlobalRef o)
  | _ => None
  end.

(** The calls that give something back. *)
Definition is_give_back (e : event) : bool :=
  match e with
  | EvMemRelease _ | EvByteBufCleanUp _ | EvDeleteGlobalRef _ => true
  | _ => false
  end.

Definition give_backs (t : list event) : list event :=
  List.filter is_give_back t.



(** The Java array elements [elems] are [Header] objects that hold, in
    order, the names and values of [hs]. *)
Fixpoint array_holds (heap : gmap Z jvalue) (elems : list Z)
    (hs : list aws_http_header) : bool :=
  match elems, hs with
  | [], [] => true
  | r :: elems', h :: hs' =>
      is_header heap (header_name h) (header_value h) r
      && array_holds heap elems' hs'
  | _, _ => false
  end.

(** The sample connection, with the Java array [[Header("X-Test","1")]]
    (reference [5]) on the heap. *)
Definition sample_java_headers : World :=
  final_world
    ((do n <- aws_jni_byte_array_from_cursor (header_name x_test_header);
      do v <- aws_jni_byte_array_from_cursor (header_value x_test_header);
      do h <- jnew (JHeader n v);
      jnew (JObjectArray [h])) sample_connection).

(** * Properties *)

(** ** Symbolic execution

    The monad's operations unfold when they meet a world; the bridge's
    primitives are unfolded on request. *)

Arguments bind {A B} m k w /.
Arguments ret {A} a w /.
Arguments segv {A} w /.
Arguments AWS_FATAL_ASSERT cond w /.
Arguments emit e w /.
Arguments fresh w /.
Arguments oracle_next w /.
Arguments set_trace t w /.
Arguments set_oracle o w /.
Arguments set_next n w /.
Arguments set_exception e w /.
Arguments set_jheap h w /.
Arguments set_conns c w /.
Arguments set_callbacks c w /.
Arguments set_managers m w /.

Create HintDb bridge.
#[local] Hint Unfold
  aws_mem_acquire aws_mem_release aws_byte_buf_init aws_byte_buf_clean_up
  aws_mutex_init aws_mutex_lock aws_mutex_unlock aws_mutex_clean_up
  jni_byte_buffer_copy_from_cursor jni_direct_byte_buffer_from_cursor
  NewGlobalRef
  DeleteGlobalRef jnew jget CallJava aws_jni_throw_runtime_exception
  aws_jni_get_thread_env aws_jni_byte_cursor_from_jstring
  aws_jni_byte_array_from_cursor aws_jni_byte_buffer_copy_from_cursor
  aws_jni_direct_byte_buffer_from_cursor
  aws_jni_direct_byte_buffer_from_byte_buf
  acquire_conn load_conn update_conn free_conn
  acquire_callback load_callback update_callback
  acquire_mgr load_mgr update_mgr free_mgr
  aws_http_connection_manager_new : bridge.

Ltac run := autounfold with bridge; cbn.

(** ** Integer conversions *)

Lemma to_uint16_jshort_80 (p : Z) : is_jshort p -> (to_uint16 p = 80 <-> p = 80).
Proof.
  unfold is_jshort, to_uint16.
  change (2 ^ 16) with 65536. change (2 ^ 15) with 32768. intros Hp.
  destruct (Z_lt_le_dec p 0) as [Hneg|Hpos].
  - replace p with (p + 65536 + (-1) * 65536) by lia.
    rewrite Z_mod_plus_full, Z.mod_small by lia. lia.
  - rewrite Z.mod_small by lia. lia.
Qed.

Lemma to_uint16_jshort_8080 (p : Z) : is_jshort p -> (to_uint16 p = 8080 <-> p = 8080).
Proof.
  unfold is_jshort, to_uint16.
  change (2 ^ 16) with 65536. change (2 ^ 15) with 32768. intros Hp.
  destruct (Z_lt_le_dec p 0) as [Hneg|Hpos].
  - replace p with (p + 65536 + (-1) * 65536) by lia.
    rewrite Z_mod_plus_full, Z.mod_small by lia. lia.
  - rewrite Z.mod_small by lia. lia.
Qed.

Lemma to_size_t_small (z : Z) : 0 <= z < 2 ^ 64 -> to_size_t z = z.
Proof. intros H. unfold to_size_t. apply Z.mod_small. exact H. Qed.

Lemma use_tls_of_port_spec (port : Z) :
  use_tls_of_port port = true <-> port <> 80 /\ port <> 8080.
Proof.
  unfold use_tls_of_port.
  destruct (Z.eqb_spec port 80), (Z.eqb_spec port 8080); simpl; split;
    intros; try discriminate; try tauto; lia.
Qed.

(** ** Exception texts *)

(** A message that fits is followed by the last error in parentheses. *)
Example exception_text_short :
  exception_text "Connection can't be null" "e"
  = "Connection can't be null (aws_last_error: e)"%string.
Proof. reflexivity. Qed.

(** ** Synchronous precondition failures *)

(** C7.  An execute-request call whose connection handle or listener is
    null throws and returns with nothing else done: the world after the call
    is the world before it with the exception pending.  In particular no
    [http_request_jni_async_callback] was acquired and
    [aws_http_stream_new_client_request] was not called. *)
Theorem execute_request_null_argument_fails
    (w : World) (jni_connection : Z) (jni_method jni_uri : list byte)
    (jni_headers jni_callback_handler : Z) :
  jni_connection = 0 \/ jni_callback_handler = 0 ->
  exists msg w',
    httpConnectionExecuteRequest jni_connection jni_method jni_uri jni_headers
      jni_callback_handler w = Done tt w'
    /\ w' = set_exception (Some msg) w
    /\ w_exception w' = Some msg
    /\ w_trace w' = w_trace w
    /\ w_callbacks w' = w_callbacks w
    /\ w_oracle w' = w_oracle w
    /\ w_next w' = w_next w.
Proof.
  intros H. unfold httpConnectionExecuteRequest.
  destruct (Z.eqb_spec jni_connection 0) as [E|E].
  - do 2 eexists. split; [reflexivity|]. repeat split.
  - destruct H as [H|H]; [contradiction|]. subst jni_callback_handler.
    do 2 eexists. split; [reflexivity|]. repeat split.
Qed.

Lemma execute_request_null_argument_fails_witness :
  (0 = 0 \/ 55 = 0) /\
  exists msg w',
    httpConnectionExecuteRequest 0 [] [] 3 55 world0 = Done tt w'
    /\ w' = set_exception (Some msg) world0
    /\ w_exception w' = Some msg
    /\ w_trace w' = w_trace world0
    /\ w_callbacks w' = w_callbacks world0
    /\ w_oracle w' = w_oracle world0
    /\ w_next w' = w_next world0.
Proof.
  split; [left; reflexivity|].
  apply (execute_request_null_argument_fails world0 0 [] [] 3 55).
  left; reflexivity.
Defined.

(** C4.  A pool-create call with a null bootstrap, null socket options, a
    port outside 1..65535, a window size that is not positive or a maximal
    connection count that is not positive throws and returns [NULL].
    Nothing was asked of the allocator (the oracle and the address counter
    are untouched), no manager exists that did not exist before, and the only
    outside call made, when the failing check is one of the last three, is
    the [GetStringUTFChars] on the endpoint that precedes the port check. *)
Theorem manager_new_precondition_failure
    (w : World)
    (conn_manager_jobject jni_client_bootstrap jni_socket_options jni_tls_ctx : Z)
    (jni_buf_size jni_window_size : Z) (jni_endpoint : list byte)
    (jni_port jni_max_conns : Z) :
  jni_client_bootstrap = 0 \/ jni_socket_options = 0
  \/ ~ (1 <= jni_port <= 65535) \/ jni_window_size <= 0 \/ jni_max_conns <= 0 ->
  exists msg w',
    httpConnectionManagerNew conn_manager_jobject jni_client_bootstrap
      jni_socket_options jni_tls_ctx jni_buf_size jni_window_size jni_endpoint
      jni_port jni_max_conns w = Done 0 w'
    /\ w_exception w' = Some msg
    /\ (w_trace w' = w_trace w
        \/ w_trace w' = w_trace w ++ [EvGetStringUTFChars jni_endpoint])
    /\ count_events is_mem_acquire (w_trace w')
       = count_events is_mem_acquire (w_trace w)
    /\ count_events is_byte_buf_init (w_trace w')
       = count_events is_byte_buf_init (w_trace w)
    /\ w_managers w' = w_managers w
    /\ w_jheap w' = w_jheap w
    /\ w_oracle w' = w_oracle w
    /\ w_next w' = w_next w.
Proof.
  intros H. unfold httpConnectionManagerNew.
  assert (Hcnt : forall p, p (EvGetStringUTFChars jni_endpoint) = false ->
            count_events p (w_trace w ++ [EvGetStringUTFChars jni_endpoint])
            = count_events p (w_trace w)).
  { intros p Hp. unfold count_events. rewrite filter_app, length_app.
    rewrite filter_cons_False by (rewrite Hp; discriminate).
    rewrite filter_nil. simpl. lia. }
  destruct (Z.eqb_spec jni_client_bootstrap 0);
    [do 2 eexists; split; [reflexivity|]; repeat split; left; reflexivity|].
  destruct (Z.eqb_spec jni_socket_options 0);
    [do 2 eexists; split; [reflexivity|]; repeat split; left; reflexivity|].
  cbn.
  destruct (Z.leb_spec jni_port 0); cbn;
    [do 2 eexists; split; [reflexivity|]; cbn; repeat split;
     try (apply Hcnt; reflexivity); right; reflexivity|].
  destruct (Z.ltb_spec 65535 jni_port); cbn;
    [do 2 eexists; split; [reflexivity|]; cbn; repeat split;
     try (apply Hcnt; reflexivity); right; reflexivity|].
  destruct (Z.leb_spec jni_window_size 0); cbn;
    [do 2 eexists; split; [reflexivity|]; cbn; repeat split;
     try (apply Hcnt; reflexivity); right; reflexivity|].
  destruct (Z.leb_spec jni_max_conns 0); cbn;
    [do 2 eexists; split; [reflexivity|]; cbn; repeat split;
     try (apply Hcnt; reflexivity); right; reflexivity|].
  exfalso. lia.
Qed.

Lemma manager_new_precondition_failure_witness :
  (7 = 0 \/ 8 = 0 \/ ~ (1 <= 443 <= 65535) \/ 16 <= 0 \/ 0 <= 0) /\
  exists msg w',
    httpConnectionManagerNew 5 7 8 0 1024 16 [] 443 0 world0 = Done 0 w'
    /\ w_exception w' = Some msg
    /\ (w_trace w' = w_trace world0
        \/ w_trace w' = w_trace world0 ++ [EvGetStringUTFChars []])
    /\ count_events is_mem_acquire (w_trace w')
       = count_events is_mem_acquire (w_trace world0)
    /\ count_events is_byte_buf_init (w_trace w')
       = count_events is_byte_buf_init (w_trace world0)
    /\ w_managers w' = w_managers world0
    /\ w_jheap w' = w_jheap world0
    /\ w_oracle w' = w_oracle world0
    /\ w_next w' = w_next world0.
Proof.
  split; [do 4 right; lia|].
  apply (manager_new_precondition_failure world0 5 7 8 0 1024 16 [] 443 0).
  do 4 right; lia.
Defined.

Ltac not_in :=
  let H := fresh in
  intros H; repeat destruct H as [H|H]; try discriminate; try contradiction.

(** C5.  [use_tls] is set exactly for ports other than 80 and 8080.  On a
    call that passes the argument checks the TLS options are initialised
    from the context exactly for those ports, and what
    [aws_http_client_connect] is given as [tls_options] is never [NULL]: it
    points to the options initialised from the context and the endpoint for
    those ports, and to the zeroed [tls_conn_options] for ports 80 and 8080.
    With the allocator giving, the call returns the handle after exactly one
    [aws_http_client_connect], and cleans the TLS options up exactly when
    [use_tls] is set.  A call for a port other than 80 and 8080 with a null
    TLS context throws and returns [NULL]; it made no outside call but the
    [GetStringUTFChars] on the endpoint, so [aws_http_client_connect] was
    not called, and no connection struct was acquired. *)
Theorem connect_tls_selection
    (w : World) (http_conn_jobject jni_client_bootstrap jni_socket_options : Z)
    (jni_tls_ctx : Z) (jni_endpoint : list byte) (jni_port : Z) :
  (use_tls_of_port (to_uint16 jni_port) = true
   <-> to_uint16 jni_port <> 80 /\ to_uint16 jni_port <> 8080)
  /\ (jni_client_bootstrap <> 0 -> jni_socket_options <> 0 ->
      to_uint16 jni_port <> 0 ->
      (use_tls_of_port (to_uint16 jni_port) = true -> jni_tls_ctx <> 0) ->
      exists suffix,
        w_trace (final_world
                   (httpConnectionNew http_conn_jobject jni_client_bootstrap
                      jni_socket_options jni_tls_ctx jni_endpoint jni_port w))
        = w_trace w ++ suffix
        /\ (In (EvTlsInitFromCtx jni_tls_ctx) suffix
            <-> to_uint16 jni_port <> 80 /\ to_uint16 jni_port <> 8080)
        /\ (In EvTlsCleanUp suffix -> In (EvTlsInitFromCtx jni_tls_ctx) suffix)
        /\ (forall options,
              In (EvHttpClientConnect options) suffix ->
              co_tls_options options
              = Some (if use_tls_of_port (to_uint16 jni_port)
                      then mk_aws_tls_connection_options jni_tls_ctx
                             (Some jni_endpoint)
                      else tls_conn_options_zero))
        /\ (Forall (eq true) (w_oracle w) ->
            exists handle,
              handle <> 0
              /\ returns (httpConnectionNew http_conn_jobject
                            jni_client_bootstrap jni_socket_options
                            jni_tls_ctx jni_endpoint jni_port w)
                 = Some handle
              /\ suffix
                 = [EvGetStringUTFChars jni_endpoint]
                   ++ (if use_tls_of_port (to_uint16 jni_port)
                       then [EvTlsInitFromCtx jni_tls_ctx;
                             EvTlsSetServerName jni_endpoint]
                       else [])
                   ++ [EvMemAcquire handle;
                       EvNewGlobalRef http_conn_jobject;
                       EvHttpClientConnect
                         {| co_bootstrap := jni_client_bootstrap;
                            co_host_name := jni_endpoint;
                            co_port := to_uint16 jni_port;
                            co_socket_options := jni_socket_options;
                            co_tls_options :=
                              Some (if use_tls_of_port (to_uint16 jni_port)
                                    then mk_aws_tls_connection_options
                                           jni_tls_ctx (Some jni_endpoint)
                                    else tls_conn_options_zero);
                            co_user_data := handle |}]
                   ++ (if use_tls_of_port (to_uint16 jni_port)
                       then [EvTlsCleanUp] else [])))
  /\ (use_tls_of_port (to_uint16 jni_port) = true -> jni_tls_ctx = 0 ->
      exists msg w',
        httpConnectionNew http_conn_jobject jni_client_bootstrap
          jni_socket_options jni_tls_ctx jni_endpoint jni_port w = Done 0 w'
        /\ w_exception w' = Some msg
        /\ (w_trace w' = w_trace w
            \/ w_trace w' = w_trace w ++ [EvGetStringUTFChars jni_endpoint])
        /\ w_conns w' = w_conns w
        /\ w_oracle w' = w_oracle w
        /\ w_next w' = w_next w).
Proof.
  split; [apply use_tls_of_port_spec|]. split.
  - intros Hb Hs Hp Ht. setoid_rewrite <- use_tls_of_port_spec.
    unfold httpConnectionNew.
    destruct (Z.eqb_spec jni_client_bootstrap 0); [contradiction|].
    destruct (Z.eqb_spec jni_socket_options 0); [contradiction|].
    run.
    destruct (Z.eqb_spec (to_uint16 jni_port) 0); [contradiction|].
    destruct (use_tls_of_port (to_uint16 jni_port)) eqn:Htls; cbn.
    + destruct (Z.eqb_spec jni_tls_ctx 0) as [E|E]; [exfalso; exact (Ht eq_refl E)|].
      cbn.
      destruct (w_oracle w) as [|[] o] eqn:Ho; cbn; rewrite ?lookup_insert_eq;
        cbn; rewrite <- ?app_assoc; cbn;
        (eexists; split; [reflexivity|]); cbn;
        (split; [tauto|]); (split; [tauto|]);
        (split;
         [intros options Hin;
          repeat destruct Hin as [Hin|Hin];
          try discriminate; try contradiction;
          inversion Hin; reflexivity|]);
        intros Hor;
        try (inversion Hor; discriminate);
        (eexists; split; [|split; reflexivity]); lia.
    + destruct (w_oracle w) as [|[] o] eqn:Ho; cbn; rewrite ?lookup_insert_eq;
        cbn; rewrite <- ?app_assoc; cbn;
        (eexists; split; [reflexivity|]); cbn;
        (split; [split; [not_in|discriminate]|]);
        (split; [not_in|]);
        (split;
         [intros options Hin;
          repeat destruct Hin as [Hin|Hin];
          try discriminate; try contradiction;
          inversion Hin; reflexivity|]);
        intros Hor;
        try (inversion Hor; discriminate);
        (eexists; split; [|split; reflexivity]); lia.
  - intros Htls Hctx. subst jni_tls_ctx. unfold httpConnectionNew.
    destruct (Z.eqb_spec jni_client_bootstrap 0);
      [do 2 eexists; split; [reflexivity|]; repeat split; left; reflexivity|].
    destruct (Z.eqb_spec jni_socket_options 0);
      [do 2 eexists; split; [reflexivity|]; repeat split; left; reflexivity|].
    run.
    destruct (Z.eqb_spec (to_uint16 jni_port) 0);
      [do 2 eexists; split; [reflexivity|]; cbn; repeat split; right; reflexivity|].
    rewrite Htls. cbn.
    do 2 eexists; split; [reflexivity|]; cbn; repeat split; right; reflexivity.
Qed.

Lemma connect_tls_selection_witness :
  ((use_tls_of_port (to_uint16 443) = true /\ 0 = 0) /\
   exists msg w',
     httpConnectionNew 5 7 8 0 [] 443 world0 = Done 0 w'
     /\ w_exception w' = Some msg
     /\ (w_trace w' = w_trace world0
         \/ w_trace w' = w_trace world0 ++ [EvGetStringUTFChars []])
     /\ w_conns w' = w_conns world0
     /\ w_oracle w' = w_oracle world0
     /\ w_next w' = w_next world0)
  /\
  ((7 <> 0 /\ 8 <> 0 /\ to_uint16 80 <> 0
    /\ (use_tls_of_port (to_uint16 80) = true -> 0 <> 0)
    /\ Forall (eq true) (w_oracle world0)) /\
   exists suffix handle,
     w_trace (final_world (httpConnectionNew 5 7 8 0 [] 80 world0))
     = w_trace world0 ++ suffix
     /\ (In (EvTlsInitFromCtx 0) suffix
         <-> to_uint16 80 <> 80 /\ to_uint16 80 <> 8080)
     /\ (forall options,
           In (EvHttpClientConnect options) suffix ->
           co_tls_options options
           = Some (if use_tls_of_port (to_uint16 80)
                   then mk_aws_tls_connection_options 0 (Some [])
                   else tls_conn_options_zero))
     /\ handle <> 0
     /\ returns (httpConnectionNew 5 7 8 0 [] 80 world0) = Some handle
     /\ suffix
        = [EvGetStringUTFChars []]
          ++ (if use_tls_of_port (to_uint16 80)
              then [EvTlsInitFromCtx 0; EvTlsSetServerName []]
              else [])
          ++ [EvMemAcquire handle;
              EvNewGlobalRef 5;
              EvHttpClientConnect
                {| co_bootstrap := 7;
                   co_host_name := [];
                   co_port := to_uint16 80;
                   co_socket_options := 8;
                   co_tls_options :=
                     Some (if use_tls_of_port (to_uint16 80)
                           then mk_aws_tls_connection_options 0 (Some [])
                           else tls_conn_options_zero);
                   co_user_data := handle |}]
          ++ (if use_tls_of_port (to_uint16 80)
              then [EvTlsCleanUp] else [])).
Proof.
  split.
  - split; [split; reflexivity|].
    apply (proj2 (proj2 (connect_tls_selection world0 5 7 8 0 [] 443)));
      reflexivity.
  - assert (H1 : 7 <> 0) by lia. assert (H2 : 8 <> 0) by lia.
    assert (H3 : to_uint16 80 <> 0) by (vm_compute; discriminate).
    assert (H4 : use_tls_of_port (to_uint16 80) = true -> 0 <> 0)
      by (vm_compute; discriminate).
    assert (H5 : Forall (eq true) (w_oracle world0)) by constructor.
    split; [repeat split; assumption|].
    destruct (proj1 (proj2 (connect_tls_selection world0 5 7 8 0 [] 80))
                H1 H2 H3 H4) as (suffix & Htr & Htls & _ & Hopt & Hall).
    destruct (Hall H5) as (handle & Hnz & Hret & Hsuffix).
    exists suffix, handle.
    split; [exact Htr|]. split; [exact Htls|]. split; [exact Hopt|].
    split; [exact Hnz|]. split; [exact Hret | exact Hsuffix].
Defined.

(** C10.  [httpConnectionClose] on a null handle raises no exception: its
    first statement writes through the handle, and the run ends there with
    the world untouched.  Execute-request with a null connection, pool acquire
    with a null manager and pool release with a null manager or a null
    connection all throw and return. *)
Theorem close_does_not_check_null (w : World) :
  httpConnectionClose 0 w = Segv w
  /\ (forall jni_method jni_uri jni_headers jni_callback_handler,
        httpConnectionExecuteRequest 0 jni_method jni_uri jni_headers
          jni_callback_handler w
        = Done tt (set_exception
                     (Some "HttpConnection.ExecuteRequest: Invalid connection") w))
  /\ (forall conn_manager_jobject,
        httpConnectionManagerAcquireConnection conn_manager_jobject 0 w
        = Done tt (set_exception (Some "Connection Manager can't be null") w))
  /\ (forall jni_conn,
        httpConnectionManagerReleaseConnection 0 jni_conn w
        = Done tt (set_exception (Some "Connection Manager can't be null") w))
  /\ (forall jni_conn_manager, exists msg,
        httpConnectionManagerReleaseConnection jni_conn_manager 0 w
        = Done tt (set_exception (Some msg) w))
  /\ httpConnectionManagerRelease 0 w
     = Done tt (set_exception (Some "Connection Manager can't be null") w).
Proof.
  repeat split; try reflexivity.
  intros m. unfold httpConnectionManagerReleaseConnection.
  destruct (m =? 0); eexists; reflexivity.
Qed.

(** ** Closing a connection *)

(** C8.  On a live handle the first close sets [disconnect_requested] and
    asks the native connection to close; a second close asks the same native
    connection again and leaves every struct of the bridge, the handle's
    among them, as the first close left it. *)
Theorem close_idempotent
    (w : World) (jni_connection : Z) (c : http_jni_connection) :
  jni_connection <> 0 ->
  w_conns w !! jni_connection = Some c ->
  exists w1 w2 c1,
    httpConnectionClose jni_connection w = Done tt w1
    /\ httpConnectionClose jni_connection w1 = Done tt w2
    /\ w_conns w1 !! jni_connection = Some c1
    /\ disconnect_requested c1 = true
    /\ native_http_conn c1 = native_http_conn c
    /\ w_conns w2 = w_conns w1
    /\ w_trace w1 = w_trace w ++ [EvHttpConnectionClose (native_http_conn c)]
    /\ w_trace w2 = w_trace w1 ++ [EvHttpConnectionClose (native_http_conn c)]
    /\ w2 = set_trace (w_trace w2) w1.
Proof.
  intros Hnz Hlive.
  unfold httpConnectionClose. run.
  destruct (Z.eqb_spec jni_connection 0); [contradiction|].
  rewrite Hlive. cbn. rewrite !lookup_insert_eq. cbn.
  do 3 eexists. split; [reflexivity|].
  repeat (progress (cbn; rewrite ?lookup_insert_eq, ?insert_insert_eq)).
  split; [reflexivity|]. cbn. rewrite ?lookup_insert_eq.
  repeat split; reflexivity.
Qed.

Lemma close_idempotent_witness :
  let w := final_world (httpConnectionNew 5 7 8 9 [] 443 world0) in
  (1 <> 0 /\ w_conns w !! 1 = Some (mk_http_jni_connection 0 0 0 the_java_vm 5 false)) /\
  exists w1 w2 c1,
    httpConnectionClose 1 w = Done tt w1
    /\ httpConnectionClose 1 w1 = Done tt w2
    /\ w_conns w1 !! 1 = Some c1
    /\ disconnect_requested c1 = true
    /\ native_http_conn c1 = 0
    /\ w_conns w2 = w_conns w1
    /\ w_trace w1 = w_trace w ++ [EvHttpConnectionClose 0]
    /\ w_trace w2 = w_trace w1 ++ [EvHttpConnectionClose 0]
    /\ w2 = set_trace (w_trace w2) w1.
Proof.
  intros w.
  assert (Hlive : w_conns w !! 1 = Some (mk_http_jni_connection 0 0 0 the_java_vm 5 false))
    by (vm_compute; reflexivity).
  split; [split; [lia | exact Hlive]|].
  apply (close_idempotent w 1 _ ltac:(lia) Hlive).
Defined.

(** ** Response headers *)

(** One round of the loop allocates three Java objects and touches nothing
    that existed before; so does the whole loop. *)
Lemma s_java_headers_array_from_native_loop_spec
    (header_array : list aws_http_header) :
  forall w : World,
  exists h' n',
    s_java_headers_array_from_native_loop header_array w
    = Done tt (set_next n' (set_jheap h' w))
    /\ (w_next w <= n')%positive
    /\ forall r : Z, r < Z.pos (w_next w) -> h' !! r = w_jheap w !! r.
Proof.
  induction header_array as [|h rest IH]; intros w.
  - exists (w_jheap w), (w_next w). destruct w; cbn.
    split; [reflexivity|]. split; [lia|]. reflexivity.
  - cbn [s_java_headers_array_from_native_loop]. run.
    match goal with
    | |- context [s_java_headers_array_from_native_loop rest ?w0] =>
        destruct (IH w0) as (h' & n' & Heq & Hle & Hold); rewrite Heq
    end.
    cbn in *. exists h', n'. split; [reflexivity|]. split; [lia|].
    intros r Hr. rewrite Hold by lia.
    rewrite !lookup_insert_ne by lia. reflexivity.
Qed.

Lemma s_java_headers_array_from_native_spec
    (w : World) (callback : Z) (header_array : list aws_http_header)
    (cb : http_request_jni_async_callback) (conn : http_jni_connection) :
  callback <> 0 -> w_callbacks w !! callback = Some cb ->
  connection cb <> 0 -> w_conns w !! connection cb = Some conn ->
  exists h' n',
    s_java_headers_array_from_native callback header_array w
    = Done (Z.pos (w_next w))
           (set_next n' (set_jheap h'
              (set_trace (w_trace w ++ [EvAttachCurrentThread (jvm conn)]) w)))
    /\ h' !! Z.pos (w_next w)
       = Some (JObjectArray (replicate (length header_array) 0))
    /\ forall r : Z, r < Z.pos (w_next w) -> h' !! r = w_jheap w !! r.
Proof.
  intros Hcb Hlcb Hconn Hlconn.
  unfold s_java_headers_array_from_native. run.
  destruct (Z.eqb_spec callback 0); [contradiction|]. rewrite Hlcb. cbn.
  destruct (Z.eqb_spec (connection cb) 0); [contradiction|]. rewrite Hlconn. cbn.
  match goal with
  | |- context [s_java_headers_array_from_native_loop header_array ?w0] =>
      destruct (s_java_headers_array_from_native_loop_spec header_array w0)
        as (h' & n' & Heq & Hle & Hold); rewrite Heq
  end.
  cbn in *. exists h', n'. split; [reflexivity|]. split.
  - rewrite Hold by lia. apply lookup_insert_eq.
  - intros r Hr. rewrite Hold by lia. apply lookup_insert_ne. lia.
Qed.

Lemma java_calls_app (t1 t2 : list event) :
  java_calls (t1 ++ t2) = java_calls t1 ++ java_calls t2.
Proof. unfold java_calls. apply omap_app. Qed.

Lemma existsb_replicate_false {A} (f : A -> bool) (x : A) (n : nat) :
  f x = false -> existsb f (replicate n x) = false.
Proof. intros Hx. induction n as [|n IH]; cbn; [reflexivity|]. rewrite Hx, IH. reflexivity. Qed.

(** What one headers callback does, exactly. *)
Lemma s_on_incoming_headers_fn_spec
    (w : World) (stream : aws_http_stream)
    (header_array : list aws_http_header) (user_data : Z)
    (cb : http_request_jni_async_callback) (conn : http_jni_connection) :
  user_data <> 0 -> w_callbacks w !! user_data = Some cb ->
  connection cb <> 0 -> w_conns w !! connection cb = Some conn ->
  exists h' n',
    s_on_incoming_headers_fn stream header_array user_data w
    = Done tt
        (set_next n' (set_jheap h'
           (set_trace
              (w_trace w
               ++ [EvAttachCurrentThread (jvm conn);
                   EvAttachCurrentThread (jvm conn)]
               ++ (if get_status_err stream =? 0 then []
                   else [EvCallJava (onResponseComplete
                                       (jni_http_callback_handler cb)
                                       (get_status_err stream))])
               ++ [EvCallJava (onHeaders (jni_http_callback_handler cb)
                                         (get_status_value stream)
                                         (Z.pos (w_next w)))]) w)))
    /\ h' !! Z.pos (w_next w)
       = Some (JObjectArray (replicate (length header_array) 0))
    /\ forall r : Z, r < Z.pos (w_next w) -> h' !! r = w_jheap w !! r.
Proof.
  intros Hcb Hlcb Hconn Hlconn.
  unfold s_on_incoming_headers_fn. run.
  destruct (Z.eqb_spec user_data 0); [contradiction|]. rewrite Hlcb. cbn.
  destruct (Z.eqb_spec (connection cb) 0); [contradiction|]. rewrite Hlconn. cbn.
  match goal with
  | |- context [s_java_headers_array_from_native user_data header_array ?w0] =>
      destruct (s_java_headers_array_from_native_spec w0 user_data
                  header_array cb conn Hcb Hlcb Hconn Hlconn)
        as (h' & n' & Heq & Harr & Hold); rewrite Heq
  end.
  cbn in *. exists h', n'.
  destruct (get_status_err stream =? 0); cbn; rewrite <- ?app_assoc; cbn;
    (split; [reflexivity|]); (split; [exact Harr | exact Hold]).
Qed.

(** C3.  Whatever headers the response carries, the array handed to
    [onHeaders] has one slot per native header and every slot is [null]:
    the [Header] objects built in the loop are never stored into it.  It
    therefore has no entry with any given name and value. *)
Theorem headers_array_holds_only_null
    (w : World) (stream : aws_http_stream)
    (header_array : list aws_http_header) (user_data : Z)
    (cb : http_request_jni_async_callback) (conn : http_jni_connection) :
  user_data <> 0 -> w_callbacks w !! user_data = Some cb ->
  connection cb <> 0 -> w_conns w !! connection cb = Some conn ->
  w_jheap w !! 0 = None ->
  exists w' jHeaders,
    s_on_incoming_headers_fn stream header_array user_data w = Done tt w'
    /\ last (java_calls (w_trace w'))
       = Some (onHeaders (jni_http_callback_handler cb)
                         (get_status_value stream) jHeaders)
    /\ w_jheap w' !! jHeaders
       = Some (JObjectArray (replicate (length header_array) 0))
    /\ forall name value : list byte,
         array_has_header (w_jheap w') jHeaders name value = false.
Proof.
  intros Hcb Hlcb Hconn Hlconn Hnull.
  destruct (s_on_incoming_headers_fn_spec w stream header_array user_data
              cb conn Hcb Hlcb Hconn Hlconn) as (h' & n' & Heq & Harr & Hold).
  rewrite Heq. eexists; exists (Z.pos (w_next w)).
  split; [reflexivity|]. cbn. split; [|split; [exact Harr|]].
  - rewrite java_calls_app, last_app.
    destruct (get_status_err stream =? 0); reflexivity.
  - intros name value. unfold array_has_header. rewrite Harr.
    apply existsb_replicate_false. unfold is_header.
    rewrite Hold by lia. rewrite Hnull. reflexivity.
Qed.

Lemma headers_array_holds_only_null_witness :
  (2 <> 0
   /\ w_callbacks sample_request !! 2
      = Some (mk_http_request_jni_async_callback 1 55 0)
   /\ 1 <> 0
   /\ w_conns sample_request !! 1
      = Some (mk_http_jni_connection 0 0 0 the_java_vm 5 false)
   /\ w_jheap sample_request !! 0 = None) /\
  exists w' jHeaders,
    s_on_incoming_headers_fn (mk_aws_http_stream 0 200) [x_test_header] 2
      sample_request = Done tt w'
    /\ last (java_calls (w_trace w')) = Some (onHeaders 55 200 jHeaders)
    /\ w_jheap w' !! jHeaders = Some (JObjectArray (replicate 1%nat 0))
    /\ forall name value : list byte,
         array_has_header (w_jheap w') jHeaders name value = false.
Proof.
  assert (H1 : w_callbacks sample_request !! 2
               = Some (mk_http_request_jni_async_callback 1 55 0))
    by (vm_compute; reflexivity).
  assert (H2 : w_conns sample_request !! 1
               = Some (mk_http_jni_connection 0 0 0 the_java_vm 5 false))
    by (vm_compute; reflexivity).
  assert (H3 : w_jheap sample_request !! 0 = None) by (vm_compute; reflexivity).
  split; [repeat split; try lia; assumption|].
  apply (headers_array_holds_only_null sample_request (mk_aws_http_stream 0 200)
           [x_test_header] 2 _ _ ltac:(lia) H1 ltac:(cbn; lia) H2 H3).
Defined.

(** ** The order of stream events *)

(** C1.  When the status query of a headers callback fails, the bridge
    delivers [onResponseComplete] and goes on to deliver [onHeaders]; the
    stream's completion callback then delivers [onResponseComplete] once
    more.  The listener sees stream-complete twice, and headers-received
    after the first of them. *)
Theorem stream_complete_before_headers
    (w : World) (stream : aws_http_stream)
    (header_array : list aws_http_header) (error_code user_data : Z)
    (cb : http_request_jni_async_callback) (conn : http_jni_connection) :
  user_data <> 0 -> w_callbacks w !! user_data = Some cb ->
  connection cb <> 0 -> w_conns w !! connection cb = Some conn ->
  get_status_err stream <> 0 ->
  exists w' jHeaders calls,
    invoke_all user_data
      [on_response_headers stream header_array; on_complete stream error_code] w
    = Done tt w'
    /\ java_calls (w_trace w') = java_calls (w_trace w) ++ calls
    /\ calls = [onResponseComplete (jni_http_callback_handler cb)
                                   (get_status_err stream);
                onHeaders (jni_http_callback_handler cb)
                          (get_status_value stream) jHeaders;
                onResponseComplete (jni_http_callback_handler cb) error_code]
    /\ complete_is_terminal calls = false
    /\ count_stream_complete calls = 2%nat.
Proof.
  intros Hcb Hlcb Hconn Hlconn Herr.
  cbn [invoke_all invoke bind].
  destruct (s_on_incoming_headers_fn_spec w stream header_array user_data
              cb conn Hcb Hlcb Hconn Hlconn) as (h' & n' & Heq & _ & _).
  rewrite Heq. unfold s_on_stream_complete_fn. run.
  destruct (Z.eqb_spec user_data 0); [contradiction|]. rewrite Hlcb. cbn.
  destruct (Z.eqb_spec (connection cb) 0); [contradiction|]. rewrite Hlconn. cbn.
  destruct (Z.eqb_spec (get_status_err stream) 0); [contradiction|].
  do 3 eexists. split; [reflexivity|]. cbn.
  split; [|split; [reflexivity|split; reflexivity]].
  rewrite <- !app_assoc. rewrite java_calls_app. reflexivity.
Qed.

Lemma stream_complete_before_headers_witness :
  (2 <> 0
   /\ w_callbacks sample_request !! 2
      = Some (mk_http_request_jni_async_callback 1 55 0)
   /\ 1 <> 0
   /\ w_conns sample_request !! 1
      = Some (mk_http_jni_connection 0 0 0 the_java_vm 5 false)
   /\ -1 <> 0) /\
  exists w' jHeaders calls,
    invoke_all 2
      [on_response_headers (mk_aws_http_stream (-1) 0) [x_test_header];
       on_complete (mk_aws_http_stream (-1) 0) 0] sample_request
    = Done tt w'
    /\ java_calls (w_trace w') = java_calls (w_trace sample_request) ++ calls
    /\ calls = [onResponseComplete 55 (-1); onHeaders 55 0 jHeaders;
                onResponseComplete 55 0]
    /\ complete_is_terminal calls = false
    /\ count_stream_complete calls = 2%nat.
Proof.
  assert (H1 : w_callbacks sample_request !! 2
               = Some (mk_http_request_jni_async_callback 1 55 0))
    by (vm_compute; reflexivity).
  assert (H2 : w_conns sample_request !! 1
               = Some (mk_http_jni_connection 0 0 0 the_java_vm 5 false))
    by (vm_compute; reflexivity).
  split; [repeat split; try lia; assumption|].
  apply (stream_complete_before_headers sample_request
           (mk_aws_http_stream (-1) 0) [x_test_header] 0 2 _ _
           ltac:(lia) H1 ltac:(cbn; lia) H2 ltac:(cbn; lia)).
Defined.

(** ** Pool shutdown *)

Lemma set_pairs_set_pairs (l1 l2 : list jni_byte_buf_pair) (m : jni_conn_manager) :
  set_pairs l1 (set_pairs l2 m) = set_pairs l1 m.
Proof. reflexivity. Qed.

Lemma set_pairs_id (m : jni_conn_manager) :
  set_pairs (idle_java_native_buf_pairs m) m = m.
Proof. destruct m; reflexivity. Qed.

(** The loop on the list of a live manager: it makes the calls of
    [drain_events], in order, counts the nodes and leaves the list empty. *)
Lemma drain_pairs_spec (mgr : Z) (pairs : list jni_byte_buf_pair) :
  forall (num_nodes : Z) (w : World) (m : jni_conn_manager),
  mgr <> 0 -> w_managers w !! mgr = Some m ->
  idle_java_native_buf_pairs m = pairs ->
  drain_pairs mgr pairs num_nodes w
  = Done (num_nodes + Z.of_nat (length pairs))
         (set_managers (<[mgr := set_pairs [] m]> (w_managers w))
            (set_trace (w_trace w ++ drain_events pairs) w)).
Proof.
  induction pairs as [|p rest IH]; intros num_nodes w m Hnz Hlive Hidle.
  - cbn. rewrite Z.add_0_r, app_nil_r, <- Hidle, set_pairs_id.
    rewrite insert_id by exact Hlive. destruct w; reflexivity.
  - cbn [drain_pairs]. run.
    destruct (Z.eqb_spec mgr 0); [contradiction|]. rewrite Hlive. cbn.
    match goal with
    | |- context [drain_pairs mgr rest ?n ?w0] =>
        rewrite (IH n w0 (set_pairs rest m) Hnz);
          [|cbn; apply lookup_insert_eq | reflexivity]
    end.
    cbn. rewrite insert_insert_eq, <- !app_assoc.
    f_equal. lia.
Qed.

(** The shutdown handler, start to end: it takes the lock, calls the
    listener, drains the list, and either aborts on the count or frees the
    manager. *)
Lemma shutdown_complete_callback_spec
    (w : World) (user_data : Z) (m : jni_conn_manager) :
  user_data <> 0 -> w_managers w !! user_data = Some m ->
  let t := w_trace w
           ++ [EvMutexLock user_data; EvAttachCurrentThread (mgr_jvm m);
               EvCallJava (onShutdownComplete (java_conn_manager m))]
           ++ drain_events (idle_java_native_buf_pairs m) in
  s_on_http_conn_manager_shutdown_complete_callback user_data w
  = if max_connections m =? Z.of_nat (length (idle_java_native_buf_pairs m))
    then Done tt (set_managers (delete user_data (w_managers w))
                    (set_trace (t ++ [EvDeleteGlobalRef (java_conn_manager m);
                                      EvMemRelease user_data;
                                      EvMutexCleanUp user_data]) w))
    else Fatal (set_managers (<[user_data := set_pairs [] m]> (w_managers w))
                  (set_trace t w)).
Proof.
  intros Hnz Hlive t.
  unfold s_on_http_conn_manager_shutdown_complete_callback. run.
  destruct (Z.eqb_spec user_data 0); [contradiction|]. cbn.
  rewrite Hlive. cbn.
  match goal with
  | |- context [drain_pairs user_data ?ps ?n ?w0] =>
      rewrite (drain_pairs_spec user_data ps n w0 m Hnz);
        [|exact Hlive | reflexivity]
  end.
  rewrite Z.add_0_l. cbn. subst t.
  destruct (max_connections m =? Z.of_nat (length (idle_java_native_buf_pairs m)));
    cbn; rewrite <- ?app_assoc, ?delete_insert_eq; reflexivity.
Qed.

Lemma calls_under_lock_drain_events
    (held : list Z) (pairs : list jni_byte_buf_pair) (t : list event) :
  calls_under_lock held (drain_events pairs ++ t) = calls_under_lock held t.
Proof.
  induction pairs as [|p rest IH]; cbn; [reflexivity | exact IH].
Qed.

(** C6.  The shutdown-complete handler locks the manager's mutex first and
    calls the listener's [onShutdownComplete] next: of the calls into caller
    code it makes, that one is made with the lock held.  This holds however
    the handler ends. *)
Theorem shutdown_complete_called_under_lock
    (w : World) (user_data : Z) (m : jni_conn_manager) :
  user_data <> 0 -> w_managers w !! user_data = Some m ->
  exists suffix,
    w_trace (final_world
               (s_on_http_conn_manager_shutdown_complete_callback user_data w))
    = w_trace w ++ suffix
    /\ calls_under_lock [] suffix
       = [onShutdownComplete (java_conn_manager m)].
Proof.
  intros Hnz Hlive.
  rewrite (shutdown_complete_callback_spec w user_data m Hnz Hlive).
  destruct (max_connections m =? Z.of_nat (length (idle_java_native_buf_pairs m)));
    cbn; rewrite <- ?app_assoc; (eexists; split; [reflexivity|]); cbn.
  - rewrite calls_under_lock_drain_events. reflexivity.
  - rewrite <- (app_nil_r (drain_events _)).
    rewrite calls_under_lock_drain_events. reflexivity.
Qed.

Lemma shutdown_complete_called_under_lock_witness :
  (1 <> 0
   /\ w_managers sample_pool !! 1
      = Some (mk_jni_conn_manager the_java_vm 50 6 2 1024
                [mk_jni_byte_buf_pair 1024 5 44; mk_jni_byte_buf_pair 1024 3 42])) /\
  exists suffix,
    w_trace (final_world
               (s_on_http_conn_manager_shutdown_complete_callback 1 sample_pool))
    = w_trace sample_pool ++ suffix
    /\ calls_under_lock [] suffix = [onShutdownComplete 50].
Proof.
  assert (H : w_managers sample_pool !! 1
              = Some (mk_jni_conn_manager the_java_vm 50 6 2 1024
                        [mk_jni_byte_buf_pair 1024 5 44;
                         mk_jni_byte_buf_pair 1024 3 42]))
    by (vm_compute; reflexivity).
  split; [split; [lia | exact H]|].
  apply (shutdown_complete_called_under_lock sample_pool 1 _ ltac:(lia) H).
Defined.

(** ** Pool construction *)

Lemma count_events_app (p : event -> bool) (t1 t2 : list event) :
  count_events p (t1 ++ t2) = (count_events p t1 + count_events p t2)%nat.
Proof. unfold count_events. rewrite filter_app, length_app. reflexivity. Qed.

Lemma count_events_cons (p : event -> bool) (e : event) (t : list event) :
  count_events p (e :: t)
  = ((if p e then 1 else 0) + count_events p t)%nat.
Proof.
  unfold count_events. destruct (p e) eqn:He.
  - rewrite filter_cons_True by exact He. reflexivity.
  - rewrite filter_cons_False by (rewrite He; discriminate). reflexivity.
Qed.

Lemma count_events_nil (p : event -> bool) : count_events p [] = 0%nat.
Proof. reflexivity. Qed.

Ltac count :=
  repeat (progress
            (rewrite ?count_events_app, ?count_events_cons, ?count_events_nil));
  cbn -[count_events].



(** When every outside call succeeds. *)
Lemma oracle_next_true (w : World) :
  Forall (eq true) (w_oracle w) ->
  exists o', oracle_next w = Done true (set_oracle o' w) /\ Forall (eq true) o'.
Proof.
  intros H. destruct w as [t o n e h c cb M u]. cbn in *.
  destruct o as [|b o].
  - exists []. split; [reflexivity | constructor].
  - inversion H; subst. exists o. split; [reflexivity | assumption].
Qed.

Ltac oracle_step :=
  match goal with
  | |- context [oracle_next ?w0] =>
      let o := fresh "o" in
      let Heq := fresh "Heq" in
      let Ho := fresh "Ho" in
      destruct (oracle_next_true w0) as (o & Heq & Ho);
      [cbn; assumption | rewrite Heq; clear Heq; cbn -[oracle_next]]
  end.

Lemma alloc_events_app (l1 l2 : list jni_byte_buf_pair) :
  alloc_events (l1 ++ l2) = alloc_events l1 ++ alloc_events l2.
Proof. unfold alloc_events. apply flat_map_app. Qed.



Lemma pair_of_node_list_handle (block : Z) :
  pair_of_node (block + offsetof_list_handle) = block.
Proof. unfold pair_of_node. lia. Qed.

(** One round of the loop, every outside call succeeding: the block, the
    view of its buffer, and the pair pushed to the front of the list. *)
Lemma push_new_pair_spec
    (w : World) (mgr body_buf_size : Z) (m : jni_conn_manager) :
  mgr <> 0 -> w_managers w !! mgr = Some m ->
  Forall (eq true) (w_oracle w) ->
  let block := Z.pos (w_next w) in
  let view := Z.pos (Pos.succ (w_next w)) in
  let p := mk_jni_byte_buf_pair body_buf_size view
             (block + offsetof_list_handle) in
  exists o',
    aws_push_new_native_java_buf_pair mgr body_buf_size w
    = Done tt
        (mkWorld (w_trace w ++ alloc_events [p])
                 o' (Pos.succ (Pos.succ (w_next w))) (w_exception w)
                 (<[view := JDirectByteBuffer block body_buf_size]> (w_jheap w))
                 (w_conns w) (w_callbacks w)
                 (<[mgr := set_pairs (p :: idle_java_native_buf_pairs m) m]>
                    (w_managers w))
                 (w_uninit w))
    /\ Forall (eq true) o'.
Proof.
  intros Hnz Hlive Hor block view p.
  unfold aws_push_new_native_java_buf_pair. autounfold with bridge.
  cbn -[oracle_next].
  oracle_step. oracle_step. oracle_step.
  destruct (Z.eqb_spec mgr 0); [contradiction|]. rewrite Hlive. cbn.
  rewrite <- !app_assoc. cbn. rewrite pair_of_node_list_handle.
  eexists. split; [reflexivity | assumption].
Qed.

(** The loop, every outside call succeeding: the pairs it pushes, newest
    first, the calls it makes for them, oldest first, and the views it
    leaves on the Java heap. *)
Lemma push_buf_pairs_spec (mgr body_buf_size : Z) (rounds : nat) :
  forall (w : World) (m : jni_conn_manager),
  mgr <> 0 -> w_managers w !! mgr = Some m ->
  Forall (eq true) (w_oracle w) ->
  exists o' n' h' ps,
    push_buf_pairs rounds mgr body_buf_size w
    = Done tt
        (mkWorld (w_trace w ++ alloc_events (rev ps)) o' n' (w_exception w)
                 h' (w_conns w) (w_callbacks w)
                 (<[mgr := set_pairs (ps ++ idle_java_native_buf_pairs m) m]>
                    (w_managers w))
                 (w_uninit w))
    /\ Forall (eq true) o'
    /\ length ps = rounds
    /\ (w_next w <= n')%positive
    /\ (forall a, a < Z.pos (w_next w) -> h' !! a = w_jheap w !! a)
    /\ Forall (fun p =>
                 native_buf p = body_buf_size
                 /\ Z.pos (w_next w) <= pair_of_node (list_handle p) < Z.pos n'
                 /\ Z.pos (w_next w) <= java_buf p < Z.pos n'
                 /\ h' !! java_buf p
                    = Some (JDirectByteBuffer (pair_of_node (list_handle p))
                              body_buf_size)) ps
    /\ NoDup (map list_handle ps)
    /\ NoDup (map java_buf ps).
Proof.
  induction rounds as [|k IH]; intros w m Hnz Hlive Hor.
  - exists (w_oracle w), (w_next w), (w_jheap w), [].
    cbn. rewrite app_nil_r, set_pairs_id, insert_id by exact Hlive.
    destruct w; cbn in *.
    repeat split; try assumption; try reflexivity; try constructor.
  - cbn [push_buf_pairs bind].
    destruct (push_new_pair_spec w mgr body_buf_size m Hnz Hlive Hor)
      as (o1 & Heq & Ho1).
    rewrite Heq.
    set (p := mk_jni_byte_buf_pair body_buf_size (Z.pos (Pos.succ (w_next w)))
                (Z.pos (w_next w) + offsetof_list_handle)) in *.
    match goal with
    | |- context [push_buf_pairs k mgr body_buf_size ?w1] =>
        destruct (IH w1 (set_pairs (p :: idle_java_native_buf_pairs m) m) Hnz)
          as (o' & n' & h' & ps & Heq' & Ho' & Hlen & Hle & Hheap & Hall
              & Hnd & Hndj);
          [cbn; apply lookup_insert_eq | exact Ho1 | rewrite Heq']
    end.
    cbn in Hle, Hheap, Hall. cbn.
    rewrite insert_insert_eq, <- !app_assoc.
    exists o', n', h', (ps ++ [p]).
    split.
    { rewrite rev_app_distr, alloc_events_app, <- app_assoc. reflexivity. }
    split; [assumption|].
    split; [rewrite length_app; cbn; lia|].
    split; [lia|].
    split.
    { intros a Ha. rewrite Hheap by lia. apply lookup_insert_ne. lia. }
    split.
    { apply Forall_app. split.
      - eapply Forall_impl; [exact Hall|]. cbn.
        intros q (Hq1 & Hq2 & Hq3 & Hq4). repeat split; try assumption; lia.
      - constructor; [|constructor]. cbn.
        rewrite pair_of_node_list_handle.
        repeat split; try lia.
        rewrite Hheap by lia. apply lookup_insert_eq. }
    split.
    { rewrite map_app. apply NoDup_app. split; [exact Hnd|]. split.
      - intros x Hx Hp. apply list_elem_of_singleton in Hp. subst x.
        apply list_elem_of_In, in_map_iff in Hx. destruct Hx as (q & Hq & Hin).
        rewrite Forall_forall in Hall.
        destruct (Hall q ltac:(apply list_elem_of_In; exact Hin))
          as (_ & Hr & _).
        rewrite Hq in Hr. cbn in Hr. rewrite pair_of_node_list_handle in Hr.
        lia.
      - apply NoDup_singleton. }
    { rewrite map_app. apply NoDup_app. split; [exact Hndj|]. split.
      - intros x Hx Hp. apply list_elem_of_singleton in Hp. subst x.
        apply list_elem_of_In, in_map_iff in Hx. destruct Hx as (q & Hq & Hin).
        rewrite Forall_forall in Hall.
        destruct (Hall q ltac:(apply list_elem_of_In; exact Hin))
          as (_ & _ & Hr & _).
        rewrite Hq in Hr. cbn in Hr. lia.
      - apply NoDup_singleton. }
Qed.

(** A pool-create call that passes the checks, every outside call
    succeeding: the manager it leaves, the outside calls it makes, in order,
    and the pairs in the manager's list with their views. *)
Lemma manager_new_exact
    (w : World)
    (conn_manager_jobject jni_client_bootstrap jni_socket_options jni_tls_ctx : Z)
    (jni_buf_size jni_window_size : Z) (jni_endpoint : list byte)
    (jni_port jni_max_conns : Z) :
  jni_client_bootstrap <> 0 -> jni_socket_options <> 0 ->
  1 <= jni_port <= 65535 -> 0 < jni_window_size -> 0 < jni_max_conns ->
  Forall (eq true) (w_oracle w) ->
  exists w1 ps native,
    httpConnectionManagerNew conn_manager_jobject jni_client_bootstrap
      jni_socket_options jni_tls_ctx jni_buf_size jni_window_size jni_endpoint
      jni_port jni_max_conns w = Done (Z.pos (w_next w)) w1
    /\ w_managers w1 !! Z.pos (w_next w)
       = Some (mk_jni_conn_manager the_java_vm conn_manager_jobject native
                 (to_size_t jni_max_conns) (to_size_t jni_buf_size) ps)
    /\ length ps = Z.to_nat (to_size_t jni_max_conns)
    /\ native <> 0
    /\ w_trace w1
       = w_trace w
         ++ [EvGetStringUTFChars jni_endpoint]
         ++ (if jni_tls_ctx =? 0 then []
             else [EvTlsInitFromCtx jni_tls_ctx;
                   EvTlsSetServerName jni_endpoint])
         ++ [EvMemAcquire (Z.pos (w_next w));
             EvMutexInit (Z.pos (w_next w));
             EvMutexLock (Z.pos (w_next w));
             EvNewGlobalRef conn_manager_jobject]
         ++ alloc_events (rev ps)
         ++ [EvConnManagerNew
               {| mo_bootstrap := jni_client_bootstrap;
                  mo_initial_window_size := to_size_t jni_window_size;
                  mo_socket_options := jni_socket_options;
                  mo_tls_connection_options :=
                    if jni_tls_ctx =? 0 then None
                    else Some (mk_aws_tls_connection_options jni_tls_ctx
                                 (Some jni_endpoint));
                  mo_host := jni_endpoint;
                  mo_port := to_uint16 jni_port;
                  mo_max_connections := to_size_t jni_max_conns;
                  mo_shutdown_complete_user_data := Z.pos (w_next w) |}
               native;
             EvMutexUnlock (Z.pos (w_next w))]
         ++ (if jni_tls_ctx =? 0 then [] else [EvTlsCleanUp])
    /\ w_exception w1 = w_exception w
    /\ Forall (fun p =>
                 native_buf p = to_size_t jni_buf_size
                 /\ w_jheap w1 !! java_buf p
                    = Some (JDirectByteBuffer (pair_of_node (list_handle p))
                              (to_size_t jni_buf_size))) ps
    /\ NoDup (map list_handle ps)
    /\ NoDup (map java_buf ps).
Proof.
  intros Hb Hs Hp Hw Hm Hor. unfold httpConnectionManagerNew.
  destruct (Z.eqb_spec jni_client_bootstrap 0); [contradiction|].
  destruct (Z.eqb_spec jni_socket_options 0); [contradiction|].
  autounfold with bridge. cbn -[oracle_next].
  destruct (Z.leb_spec jni_port 0); [lia|].
  destruct (Z.ltb_spec 65535 jni_port); [lia|].
  destruct (Z.leb_spec jni_window_size 0); [lia|].
  destruct (Z.leb_spec jni_max_conns 0); [lia|].
  cbn -[oracle_next].
  destruct (jni_tls_ctx =? 0); cbn -[oracle_next];
    oracle_step; rewrite lookup_insert_eq; cbn -[oracle_next];
    match goal with
    | |- context [push_buf_pairs ?k ?g ?s ?w0] =>
        edestruct (push_buf_pairs_spec g s k w0)
          as (o' & n' & h' & ps & Heq & Ho' & Hlen & _ & _ & Hall & Hnd & Hndj);
          [lia | cbn; rewrite insert_insert_eq; apply lookup_insert_eq
          | cbn; assumption | rewrite Heq]
    end;
    cbn -[oracle_next]; rewrite lookup_insert_eq; cbn -[oracle_next];
    oracle_step; rewrite !lookup_insert_eq; cbn;
    rewrite app_nil_r, <- !app_assoc; cbn;
    (do 3 eexists; split; [reflexivity|]); cbn; rewrite lookup_insert_eq;
    (split; [reflexivity|]); (split; [exact Hlen|]);
    (split; [lia|]); (split; [reflexivity|]); (split; [reflexivity|]);
    (split; [|split; assumption]);
    (eapply Forall_impl; [exact Hall|]); cbn;
    intros q (Hq1 & _ & _ & Hq4); split; assumption.
Qed.





(** ** The buffer size *)











(** The same call in a world whose allocator refuses the second pair's
    native buffer: the process aborts, no exception is pending. *)
Example buffer_size_minus_one_allocation_failure :
  let w := set_oracle [true; true; true; true; true; false] world0 in
  exists w',
    httpConnectionManagerNew 50 7 8 0 (-1) 16 [] 443 2 w = Fatal w'
    /\ w_exception w' = None
    /\ count_events is_byte_buf_init (w_trace w') = 1%nat.
Proof. eexists. split; [vm_compute; reflexivity|]. split; reflexivity. Qed.

(** ** The order of stream events when the status is known

    Off the failing status query the bridge hands each native callback on as
    one call of the answering listener method, so the listener sees what
    aws-c-http delivers. *)

Lemma invoke_status_known
    (w : World) (user_data : Z) (cb0 : stream_callback)
    (cb : http_request_jni_async_callback) (conn : http_jni_connection) :
  user_data <> 0 -> w_callbacks w !! user_data = Some cb ->
  connection cb <> 0 -> w_conns w !! connection cb = Some conn ->
  status_known cb0 = true ->
  exists w' c,
    invoke user_data cb0 w = Done tt w'
    /\ java_calls (w_trace w') = java_calls (w_trace w) ++ [c]
    /\ answers (jni_http_callback_handler cb) cb0 c = true
    /\ w_callbacks w' = w_callbacks w
    /\ w_conns w' = w_conns w.
Proof.
  intros Hcb Hlcb Hconn Hlconn Hok.
  destruct cb0 as [s hs|s b|s d|s e]; cbn [invoke].
  - destruct (s_on_incoming_headers_fn_spec w s hs user_data cb conn
                Hcb Hlcb Hconn Hlconn) as (h' & n' & Heq & _ & _).
    rewrite Heq. cbn in Hok. rewrite Hok. cbn.
    do 2 eexists. split; [reflexivity|]. cbn.
    rewrite java_calls_app.
    repeat split; try reflexivity. cbn. apply Z.eqb_refl.
  - unfold s_on_incoming_header_block_done_fn. run.
    destruct (Z.eqb_spec user_data 0); [contradiction|]. rewrite Hlcb. cbn.
    destruct (Z.eqb_spec (connection cb) 0); [contradiction|]. rewrite Hlconn. cbn.
    do 2 eexists. split; [reflexivity|]. cbn.
    rewrite <- app_assoc, java_calls_app. cbn.
    repeat split; try reflexivity. cbn. rewrite Z.eqb_refl.
    destruct b; reflexivity.
  - unfold s_on_incoming_body_fn. run.
    destruct (Z.eqb_spec user_data 0); [contradiction|]. rewrite Hlcb. cbn.
    destruct (Z.eqb_spec (connection cb) 0); [contradiction|]. rewrite Hlconn. cbn.
    do 2 eexists. split; [reflexivity|]. cbn.
    rewrite <- app_assoc, java_calls_app. cbn.
    repeat split; try reflexivity. cbn. apply Z.eqb_refl.
  - unfold s_on_stream_complete_fn. run.
    destruct (Z.eqb_spec user_data 0); [contradiction|]. rewrite Hlcb. cbn.
    destruct (Z.eqb_spec (connection cb) 0); [contradiction|]. rewrite Hlconn. cbn.
    do 2 eexists. split; [reflexivity|]. cbn.
    rewrite <- app_assoc, java_calls_app. cbn.
    repeat split; try reflexivity. cbn. rewrite !Z.eqb_refl. reflexivity.
Qed.

Lemma invoke_all_status_known (user_data : Z) (cbs : list stream_callback)
    (cb : http_request_jni_async_callback) (conn : http_jni_connection) :
  forall w : World,
  user_data <> 0 -> w_callbacks w !! user_data = Some cb ->
  connection cb <> 0 -> w_conns w !! connection cb = Some conn ->
  forallb status_known cbs = true ->
  exists w' calls,
    invoke_all user_data cbs w = Done tt w'
    /\ java_calls (w_trace w') = java_calls (w_trace w) ++ calls
    /\ Forall2 (fun c0 c => answers (jni_http_callback_handler cb) c0 c = true)
               cbs calls.
Proof.
  induction cbs as [|cb0 rest IH]; intros w Hcb Hlcb Hconn Hlconn Hok.
  - exists w, []. cbn. rewrite app_nil_r. repeat split. constructor.
  - cbn in Hok. apply andb_prop in Hok. destruct Hok as [Hok0 Hok].
    destruct (invoke_status_known w user_data cb0 cb conn Hcb Hlcb Hconn
                Hlconn Hok0) as (w1 & c & Heq & Htr & Hans & Hcbs & Hcs).
    destruct (IH w1 Hcb ltac:(rewrite Hcbs; exact Hlcb) Hconn
                 ltac:(rewrite Hcs; exact Hlconn) Hok)
      as (w' & calls & Heq' & Htr' & Hall).
    exists w', (c :: calls). cbn [invoke_all bind]. rewrite Heq.
    split; [exact Heq'|]. split.
    + rewrite Htr', Htr, <- app_assoc. reflexivity.
    + constructor; assumption.
Qed.

Lemma answers_no_complete
    (handler : Z) (cbs : list stream_callback) (calls : list java_call) :
  Forall2 (fun c0 c => answers handler c0 c = true) cbs calls ->
  forallb (fun c0 => negb (is_on_complete c0)) cbs = true ->
  forall tail : list java_call,
    count_stream_complete (calls ++ tail) = count_stream_complete tail
    /\ complete_is_terminal (calls ++ tail) = complete_is_terminal tail.
Proof.
  induction 1 as [|c0 c cbs calls Hans Hall IH]; intros Hno tail.
  - split; reflexivity.
  - cbn in Hno. apply andb_prop in Hno. destruct Hno as [Hno0 Hno].
    destruct (IH Hno tail) as [IHc IHt].
    assert (Hc : is_stream_complete c = false)
      by (destruct c0, c; cbn in *; congruence).
    split.
    + unfold count_stream_complete in *. cbn [app].
      rewrite filter_cons_False by (rewrite Hc; discriminate). exact IHc.
    + cbn [app complete_is_terminal]. rewrite Hc. exact IHt.
Qed.

(** X14.  A native stream that ends in its one completion callback, with every
    status query before it succeeding, makes one call per native callback,
    each the answering method on the request's own listener,
    [jni_http_callback_handler cb]: the listener sees exactly one
    stream-complete, with the native error code, and nothing after it. *)
Lemma stream_complete_terminal_when_status_known
    (w : World) (user_data : Z) (cbs : list stream_callback)
    (stream : aws_http_stream) (error_code : Z)
    (cb : http_request_jni_async_callback) (conn : http_jni_connection) :
  user_data <> 0 -> w_callbacks w !! user_data = Some cb ->
  connection cb <> 0 -> w_conns w !! connection cb = Some conn ->
  forallb status_known cbs = true ->
  forallb (fun c0 => negb (is_on_complete c0)) cbs = true ->
  exists w' calls,
    invoke_all user_data (cbs ++ [on_complete stream error_code]) w = Done tt w'
    /\ java_calls (w_trace w') = java_calls (w_trace w) ++ calls
    /\ Forall2 (fun c0 c => answers (jni_http_callback_handler cb) c0 c = true)
               (cbs ++ [on_complete stream error_code]) calls
    /\ count_stream_complete calls = 1%nat
    /\ complete_is_terminal calls = true
    /\ last calls
       = Some (onResponseComplete (jni_http_callback_handler cb) error_code).
Proof.
  intros Hcb Hlcb Hconn Hlconn Hok Hno.
  destruct (invoke_all_status_known user_data
              (cbs ++ [on_complete stream error_code]) cb conn w
              Hcb Hlcb Hconn Hlconn) as (w' & calls & Heq & Htr & Hall).
  { rewrite forallb_app, Hok. reflexivity. }
  pose proof Hall as Hall0.
  apply Forall2_app_inv_l in Hall.
  destruct Hall as (calls1 & calls2 & Hall1 & Hall2 & ->).
  inversion Hall2 as [|? c ? ? Hans Hnil]; subst. inversion Hnil; subst.
  exists w', (calls1 ++ [c]). split; [exact Heq|]. split; [exact Htr|].
  split; [exact Hall0|].
  destruct (answers_no_complete _ cbs calls1 Hall1 Hno [c]) as [Hc Ht].
  rewrite Hc, Ht.
  destruct c; cbn in Hans; try discriminate.
  split; [reflexivity|]. split; [reflexivity|].
  rewrite last_snoc. apply andb_prop in Hans. destruct Hans as [Hh He].
  apply Z.eqb_eq in Hh, He. subst. reflexivity.
Qed.

(** ** Between construction and shutdown *)

(** Releasing the pool, the step that leads to the shutdown-complete
    callback, clears the native manager's reference and leaves the pairs and
    the count alone. *)
Lemma manager_release_keeps_pairs
    (w : World) (jni_conn_manager_ptr : Z) (m : jni_conn_manager) :
  jni_conn_manager_ptr <> 0 ->
  w_managers w !! jni_conn_manager_ptr = Some m ->
  exists w' m',
    httpConnectionManagerRelease jni_conn_manager_ptr w = Done tt w'
    /\ w_managers w' !! jni_conn_manager_ptr = Some m'
    /\ native_conn_manager m' = 0
    /\ idle_java_native_buf_pairs m' = idle_java_native_buf_pairs m
    /\ max_connections m' = max_connections m
    /\ java_calls (w_trace w') = java_calls (w_trace w).
Proof.
  intros Hnz Hlive. unfold httpConnectionManagerRelease. run.
  destruct (Z.eqb_spec jni_conn_manager_ptr 0); [contradiction|].
  cbn. rewrite Hlive. cbn. rewrite ?Hlive. cbn.
  do 2 eexists. split; [reflexivity|]. cbn. rewrite lookup_insert_eq.
  split; [reflexivity|]. cbn. repeat split.
  rewrite <- !app_assoc, java_calls_app. cbn. apply app_nil_r.
Qed.

(** X22.  The acquisition callback calls the listener with no lock taken. *)
Lemma acquisition_callback_without_lock
    (w : World) (conn error_code user_data : Z) (m : jni_conn_manager) :
  user_data <> 0 -> w_managers w !! user_data = Some m ->
  exists w' suffix,
    s_on_http_conn_acquisition_callback conn error_code user_data w = Done tt w'
    /\ w_trace w' = w_trace w ++ suffix
    /\ java_calls suffix
       = [onConnectionAcquired (java_conn_manager m) conn error_code]
    /\ calls_under_lock [] suffix = [].
Proof.
  intros Hnz Hlive. unfold s_on_http_conn_acquisition_callback. run.
  destruct (Z.eqb_spec user_data 0); [contradiction|]. rewrite Hlive. cbn.
  do 2 eexists. split; [reflexivity|]. cbn. rewrite <- app_assoc.
  split; [reflexivity|]. split; reflexivity.
Qed.

(** * Further properties *)

(** ** Connecting *)

(** X4.  For a [jshort] the conversion to [uint16_t] gives ports above 32767
    back, and makes zero of zero only. *)
Lemma to_uint16_jshort (p : Z) :
  is_jshort p ->
  to_uint16 p = (if p <? 0 then p + 65536 else p)
  /\ (to_uint16 p = 0 <-> p = 0).
Proof.
  unfold is_jshort, to_uint16.
  change (2 ^ 16) with 65536. change (2 ^ 15) with 32768. intros Hp.
  destruct (Z.ltb_spec p 0) as [Hneg|Hpos].
  - replace p with (p + 65536 + (-1) * 65536) at 1 3 by lia.
    rewrite Z_mod_plus_full, Z.mod_small by lia. lia.
  - rewrite Z.mod_small by lia. lia.
Qed.

(** X1.  A connect call that passes the checks, with the allocator giving:
    the handle is the fresh block; it holds a global reference to the Java
    connection; [aws_http_client_connect] is called once, with the handle
    as user data, and the TLS options are cleaned up exactly when they were
    initialised from the context. *)
Theorem connect_success
    (w : World) (http_conn_jobject jni_client_bootstrap jni_socket_options : Z)
    (jni_tls_ctx : Z) (jni_endpoint : list byte) (jni_port : Z) :
  jni_client_bootstrap <> 0 -> jni_socket_options <> 0 ->
  to_uint16 jni_port <> 0 ->
  (use_tls_of_port (to_uint16 jni_port) = true -> jni_tls_ctx <> 0) ->
  Forall (eq true) (w_oracle w) ->
  exists w1 c,
    httpConnectionNew http_conn_jobject jni_client_bootstrap
      jni_socket_options jni_tls_ctx jni_endpoint jni_port w
    = Done (Z.pos (w_next w)) w1
    /\ w_conns w1 !! Z.pos (w_next w) = Some c
    /\ java_http_conn c = http_conn_jobject
    /\ jvm c = the_java_vm
    /\ w_exception w1 = w_exception w
    /\ w_trace w1
       = w_trace w
         ++ [EvGetStringUTFChars jni_endpoint]
         ++ (if use_tls_of_port (to_uint16 jni_port)
             then [EvTlsInitFromCtx jni_tls_ctx;
                   EvTlsSetServerName jni_endpoint]
             else [])
         ++ [EvMemAcquire (Z.pos (w_next w));
             EvNewGlobalRef http_conn_jobject;
             EvHttpClientConnect
               {| co_bootstrap := jni_client_bootstrap;
                  co_host_name := jni_endpoint;
                  co_port := to_uint16 jni_port;
                  co_socket_options := jni_socket_options;
                  co_tls_options :=
                    Some (if use_tls_of_port (to_uint16 jni_port)
                          then mk_aws_tls_connection_options jni_tls_ctx
                                 (Some jni_endpoint)
                          else tls_conn_options_zero);
                  co_user_data := Z.pos (w_next w) |}]
         ++ (if use_tls_of_port (to_uint16 jni_port)
             then [EvTlsCleanUp] else []).
Proof.
  intros Hb Hs Hp Ht Hor. unfold httpConnectionNew.
  destruct (Z.eqb_spec jni_client_bootstrap 0); [contradiction|].
  destruct (Z.eqb_spec jni_socket_options 0); [contradiction|].
  autounfold with bridge. cbn -[oracle_next].
  destruct (Z.eqb_spec (to_uint16 jni_port) 0); [contradiction|].
  destruct (use_tls_of_port (to_uint16 jni_port)) eqn:Htls; cbn -[oracle_next].
  - destruct (Z.eqb_spec jni_tls_ctx 0) as [E|E];
      [exfalso; exact (Ht eq_refl E)|].
    cbn -[oracle_next]. oracle_step. rewrite lookup_insert_eq. cbn.
    rewrite <- !app_assoc. cbn.
    do 2 eexists. split; [reflexivity|]. cbn. rewrite lookup_insert_eq.
    repeat split; reflexivity.
  - oracle_step. rewrite lookup_insert_eq. cbn.
    rewrite <- !app_assoc. cbn.
    do 2 eexists. split; [reflexivity|]. cbn. rewrite lookup_insert_eq.
    repeat split; reflexivity.
Qed.

Lemma connect_success_witness :
  (7 <> 0 /\ 8 <> 0 /\ to_uint16 443 <> 0
   /\ (use_tls_of_port (to_uint16 443) = true -> 9 <> 0)
   /\ Forall (eq true) (w_oracle world0)) /\
  exists w1 c,
    httpConnectionNew 5 7 8 9 [] 443 world0 = Done (Z.pos (w_next world0)) w1
    /\ w_conns w1 !! Z.pos (w_next world0) = Some c
    /\ java_http_conn c = 5
    /\ jvm c = the_java_vm
    /\ w_exception w1 = w_exception world0
    /\ w_trace w1
       = w_trace world0
         ++ [EvGetStringUTFChars []]
         ++ (if use_tls_of_port (to_uint16 443)
             then [EvTlsInitFromCtx 9; EvTlsSetServerName []]
             else [])
         ++ [EvMemAcquire (Z.pos (w_next world0));
             EvNewGlobalRef 5;
             EvHttpClientConnect
               {| co_bootstrap := 7;
                  co_host_name := [];
                  co_port := to_uint16 443;
                  co_socket_options := 8;
                  co_tls_options :=
                    Some (if use_tls_of_port (to_uint16 443)
                          then mk_aws_tls_connection_options 9 (Some [])
                          else tls_conn_options_zero);
                  co_user_data := Z.pos (w_next world0) |}]
         ++ (if use_tls_of_port (to_uint16 443)
             then [EvTlsCleanUp] else []).
Proof.
  assert (H3 : to_uint16 443 <> 0) by (vm_compute; discriminate).
  assert (H4 : use_tls_of_port (to_uint16 443) = true -> 9 <> 0)
    by (intros _; lia).
  assert (H5 : Forall (eq true) (w_oracle world0)) by constructor.
  split; [repeat split; try lia; assumption|].
  apply (connect_success world0 5 7 8 9 [] 443 ltac:(lia) ltac:(lia) H3 H4 H5).
Defined.

(** X2.  When the allocator refuses the connection struct the call throws and
    returns [NULL] without connecting.  TLS options that were initialised
    from the context by then are not cleaned up on this path. *)
Theorem connect_out_of_memory
    (w : World) (http_conn_jobject jni_client_bootstrap jni_socket_options : Z)
    (jni_tls_ctx : Z) (jni_endpoint : list byte) (jni_port : Z)
    (rest : list bool) :
  jni_client_bootstrap <> 0 -> jni_socket_options <> 0 ->
  to_uint16 jni_port <> 0 ->
  (use_tls_of_port (to_uint16 jni_port) = true -> jni_tls_ctx <> 0) ->
  w_oracle w = false :: rest ->
  exists w1,
    httpConnectionNew http_conn_jobject jni_client_bootstrap
      jni_socket_options jni_tls_ctx jni_endpoint jni_port w = Done 0 w1
    /\ w_exception w1
       = Some "HttpConnection.httpConnectionNew: Out of memory allocating JNI connection"%string
    /\ w_conns w1 = w_conns w
    /\ w_next w1 = w_next w
    /\ w_trace w1
       = w_trace w
         ++ [EvGetStringUTFChars jni_endpoint]
         ++ (if use_tls_of_port (to_uint16 jni_port)
             then [EvTlsInitFromCtx jni_tls_ctx;
                   EvTlsSetServerName jni_endpoint]
             else []).
Proof.
  intros Hb Hs Hp Ht Hor. unfold httpConnectionNew.
  destruct (Z.eqb_spec jni_client_bootstrap 0); [contradiction|].
  destruct (Z.eqb_spec jni_socket_options 0); [contradiction|].
  destruct w as [t o nx e h c cb M u]. cbn in Hor. subst o. run.
  destruct (Z.eqb_spec (to_uint16 jni_port) 0); [contradiction|].
  destruct (use_tls_of_port (to_uint16 jni_port)) eqn:Htls; cbn.
  - destruct (Z.eqb_spec jni_tls_ctx 0) as [E|E];
      [exfalso; exact (Ht eq_refl E)|].
    cbn. rewrite <- !app_assoc. cbn.
    eexists. split; [reflexivity|]. repeat split; reflexivity.
  - eexists. split; [reflexivity|]. repeat split; reflexivity.
Qed.

Lemma connect_out_of_memory_witness :
  (7 <> 0 /\ 8 <> 0 /\ to_uint16 443 <> 0
   /\ (use_tls_of_port (to_uint16 443) = true -> 9 <> 0)
   /\ w_oracle (set_oracle [false] world0) = false :: []) /\
  exists w1,
    httpConnectionNew 5 7 8 9 [] 443 (set_oracle [false] world0) = Done 0 w1
    /\ w_exception w1
       = Some "HttpConnection.httpConnectionNew: Out of memory allocating JNI connection"%string
    /\ w_conns w1 = w_conns (set_oracle [false] world0)
    /\ w_next w1 = w_next (set_oracle [false] world0)
    /\ w_trace w1
       = w_trace (set_oracle [false] world0)
         ++ [EvGetStringUTFChars []]
         ++ (if use_tls_of_port (to_uint16 443)
             then [EvTlsInitFromCtx 9; EvTlsSetServerName []]
             else []).
Proof.
  assert (H3 : to_uint16 443 <> 0) by (vm_compute; discriminate).
  assert (H4 : use_tls_of_port (to_uint16 443) = true -> 9 <> 0)
    by (intros _; lia).
  split; [repeat split; try lia; assumption|].
  apply (connect_out_of_memory (set_oracle [false] world0) 5 7 8 9 [] 443 []
           ltac:(lia) ltac:(lia) H3 H4 eq_refl).
Defined.

(** X3.  A connect call with a null bootstrap, null socket options or port zero
    throws and returns [NULL]; the allocator was not asked and no connection
    struct exists that did not exist before. *)
Theorem connect_precondition_failure
    (w : World) (http_conn_jobject jni_client_bootstrap jni_socket_options : Z)
    (jni_tls_ctx : Z) (jni_endpoint : list byte) (jni_port : Z) :
  jni_client_bootstrap = 0 \/ jni_socket_options = 0 \/ to_uint16 jni_port = 0 ->
  exists msg w1,
    httpConnectionNew http_conn_jobject jni_client_bootstrap
      jni_socket_options jni_tls_ctx jni_endpoint jni_port w = Done 0 w1
    /\ w_exception w1 = Some msg
    /\ (w_trace w1 = w_trace w
        \/ w_trace w1 = w_trace w ++ [EvGetStringUTFChars jni_endpoint])
    /\ w_conns w1 = w_conns w
    /\ w_oracle w1 = w_oracle w
    /\ w_next w1 = w_next w.
Proof.
  intros H. unfold httpConnectionNew.
  destruct (Z.eqb_spec jni_client_bootstrap 0);
    [do 2 eexists; split; [reflexivity|]; repeat split; left; reflexivity|].
  destruct (Z.eqb_spec jni_socket_options 0);
    [do 2 eexists; split; [reflexivity|]; repeat split; left; reflexivity|].
  run.
  destruct (Z.eqb_spec (to_uint16 jni_port) 0);
    [do 2 eexists; split; [reflexivity|]; cbn; repeat split; right; reflexivity|].
  exfalso. tauto.
Qed.

Lemma connect_precondition_failure_witness :
  (7 = 0 \/ 8 = 0 \/ to_uint16 0 = 0) /\
  exists msg w1,
    httpConnectionNew 5 7 8 9 [] 0 world0 = Done 0 w1
    /\ w_exception w1 = Some msg
    /\ (w_trace w1 = w_trace world0
        \/ w_trace w1 = w_trace world0 ++ [EvGetStringUTFChars []])
    /\ w_conns w1 = w_conns world0
    /\ w_oracle w1 = w_oracle world0
    /\ w_next w1 = w_next world0.
Proof.
  split; [right; right; reflexivity|].
  apply (connect_precondition_failure world0 5 7 8 9 [] 0).
  right; right; reflexivity.
Defined.

(** ** The connection's callbacks and its end *)

(** X5.  The setup callback stores the native connection in the handle and
    tells the Java connection once; a close that follows asks exactly that
    native connection to close.  A handle without a Java connection gets no
    call. *)
Theorem setup_then_close
    (w : World) (native error_code user_data : Z) (c : http_jni_connection) :
  user_data <> 0 -> w_conns w !! user_data = Some c ->
  exists w1 w2,
    s_on_http_conn_setup native error_code user_data w = Done tt w1
    /\ httpConnectionClose user_data w1 = Done tt w2
    /\ w_conns w1 !! user_data
       = Some (mk_http_jni_connection native (socket_options c)
                 (tls_options c) (jvm c) (java_http_conn c)
                 (disconnect_requested c))
    /\ w_conns w2 !! user_data
       = Some (mk_http_jni_connection native (socket_options c)
                 (tls_options c) (jvm c) (java_http_conn c) true)
    /\ w_trace w2
       = w_trace w
         ++ (if java_http_conn c =? 0 then []
             else [EvAttachCurrentThread (jvm c);
                   EvCallJava (onConnectionComplete (java_http_conn c)
                                                    error_code)])
         ++ [EvHttpConnectionClose native].
Proof.
  intros Hnz Hlive. unfold s_on_http_conn_setup, httpConnectionClose. run.
  destruct (Z.eqb_spec user_data 0); [contradiction|].
  rewrite Hlive. cbn. rewrite lookup_insert_eq. cbn.
  destruct (java_http_conn c =? 0); cbn;
    (do 2 eexists; split; [reflexivity|]); cbn;
    rewrite ?lookup_insert_eq; cbn; rewrite ?lookup_insert_eq; cbn;
    (split; [reflexivity|]); cbn; rewrite ?insert_insert_eq, ?lookup_insert_eq;
    rewrite <- ?app_assoc; repeat split; reflexivity.
Qed.

Lemma setup_then_close_witness :
  (1 <> 0
   /\ w_conns sample_connection !! 1
      = Some (mk_http_jni_connection 0 0 0 the_java_vm 5 false)) /\
  exists w1 w2,
    s_on_http_conn_setup 77 0 1 sample_connection = Done tt w1
    /\ httpConnectionClose 1 w1 = Done tt w2
    /\ w_conns w1 !! 1
       = Some (mk_http_jni_connection 77 0 0 the_java_vm 5 false)
    /\ w_conns w2 !! 1
       = Some (mk_http_jni_connection 77 0 0 the_java_vm 5 true)
    /\ w_trace w2
       = w_trace sample_connection
         ++ (if 5 =? 0 then []
             else [EvAttachCurrentThread the_java_vm;
                   EvCallJava (onConnectionComplete 5 0)])
         ++ [EvHttpConnectionClose 77].
Proof.
  assert (H : w_conns sample_connection !! 1
              = Some (mk_http_jni_connection 0 0 0 the_java_vm 5 false))
    by (vm_compute; reflexivity).
  split; [split; [lia | exact H]|].
  apply (setup_then_close sample_connection 77 0 1 _ ltac:(lia) H).
Defined.

(** X6.  The shutdown callback tells the Java connection once and changes
    nothing in the handle: the handle stays live, to be destroyed by the
    caller. *)
Theorem conn_shutdown_callback
    (w : World) (native error_code user_data : Z) (c : http_jni_connection) :
  user_data <> 0 -> w_conns w !! user_data = Some c ->
  exists w1,
    s_on_http_conn_shutdown native error_code user_data w = Done tt w1
    /\ w_conns w1 = w_conns w
    /\ java_calls (w_trace w1)
       = java_calls (w_trace w)
         ++ (if java_http_conn c =? 0 then []
             else [onConnectionShutdown (java_http_conn c) error_code])
    /\ count_events is_mem_release (w_trace w1)
       = count_events is_mem_release (w_trace w)
    /\ count_events is_delete_global_ref (w_trace w1)
       = count_events is_delete_global_ref (w_trace w).
Proof.
  intros Hnz Hlive. unfold s_on_http_conn_shutdown. run.
  destruct (Z.eqb_spec user_data 0); [contradiction|].
  rewrite Hlive. cbn.
  destruct (java_http_conn c =? 0); cbn.
  - eexists. split; [reflexivity|]. rewrite app_nil_r. repeat split.
  - eexists. split; [reflexivity|]. cbn -[count_events]. rewrite <- app_assoc.
    split; [reflexivity|]. split; [rewrite java_calls_app; reflexivity|].
    split; count; lia.
Qed.

Lemma conn_shutdown_callback_witness :
  (1 <> 0
   /\ w_conns sample_connection !! 1
      = Some (mk_http_jni_connection 0 0 0 the_java_vm 5 false)) /\
  exists w1,
    s_on_http_conn_shutdown 77 3 1 sample_connection = Done tt w1
    /\ w_conns w1 = w_conns sample_connection
    /\ java_calls (w_trace w1)
       = java_calls (w_trace sample_connection)
         ++ (if 5 =? 0 then [] else [onConnectionShutdown 5 3])
    /\ count_events is_mem_release (w_trace w1)
       = count_events is_mem_release (w_trace sample_connection)
    /\ count_events is_delete_global_ref (w_trace w1)
       = count_events is_delete_global_ref (w_trace sample_connection).
Proof.
  assert (H : w_conns sample_connection !! 1
              = Some (mk_http_jni_connection 0 0 0 the_java_vm 5 false))
    by (vm_compute; reflexivity).
  split; [split; [lia | exact H]|].
  apply (conn_shutdown_callback sample_connection 77 3 1 _ ltac:(lia) H).
Defined.

(** X7.  Destroy gives back what connect took: it deletes the global reference
    to the Java connection, if there is one, and releases the handle's
    block; the handle denotes no connection afterwards, and the other
    handles are as they were. *)
Theorem destroy_releases_handle
    (w : World) (jni_connection : Z) (c : http_jni_connection) :
  jni_connection <> 0 -> w_conns w !! jni_connection = Some c ->
  exists w1,
    httpConnectionDestroy jni_connection w = Done tt w1
    /\ w_conns w1 = delete jni_connection (w_conns w)
    /\ w_conns w1 !! jni_connection = None
    /\ w_trace w1
       = w_trace w
         ++ (if java_http_conn c =? 0 then []
             else [EvDeleteGlobalRef (java_http_conn c)])
         ++ [EvMemRelease jni_connection]
    /\ w_exception w1 = w_exception w.
Proof.
  intros Hnz Hlive. unfold httpConnectionDestroy. run.
  destruct (Z.eqb_spec jni_connection 0); [contradiction|].
  rewrite Hlive. cbn.
  destruct (java_http_conn c =? 0); cbn; rewrite ?Hlive; cbn;
    (eexists; split; [reflexivity|]); cbn;
    rewrite ?delete_insert_eq, <- ?app_assoc;
    (split; [reflexivity|]); (split; [apply lookup_delete_eq|]);
    split; reflexivity.
Qed.

Lemma destroy_releases_handle_witness :
  (1 <> 0
   /\ w_conns sample_connection !! 1
      = Some (mk_http_jni_connection 0 0 0 the_java_vm 5 false)) /\
  exists w1,
    httpConnectionDestroy 1 sample_connection = Done tt w1
    /\ w_conns w1 = delete 1 (w_conns sample_connection)
    /\ w_conns w1 !! 1 = None
    /\ w_trace w1
       = w_trace sample_connection
         ++ (if 5 =? 0 then [] else [EvDeleteGlobalRef 5])
         ++ [EvMemRelease 1]
    /\ w_exception w1 = w_exception sample_connection.
Proof.
  assert (H : w_conns sample_connection !! 1
              = Some (mk_http_jni_connection 0 0 0 the_java_vm 5 false))
    by (vm_compute; reflexivity).
  split; [split; [lia | exact H]|].
  apply (destroy_releases_handle sample_connection 1 _ ltac:(lia) H).
Defined.

(** ** Bytes and headers across the boundary *)

Lemma bytes_eqb_eq (a b : list byte) : bytes_eqb a b = true -> a = b.
Proof.
  revert b. induction a as [|x a IH]; intros [|y b] H; cbn in H;
    try discriminate; [reflexivity|].
  apply andb_prop in H. destruct H as [Hxy Hab].
  apply Byte.byte_dec_bl in Hxy. rewrite (IH b Hab), Hxy. reflexivity.
Qed.

(** X9.  A cursor copied into a Java byte array and read back as a cursor holds
    the same bytes; the copy is a new object and no object that existed is
    changed. *)
Theorem byte_array_round_trip (w : World) (native_data : list byte) :
  exists w1,
    (do jArray <- aws_jni_byte_array_from_cursor native_data;
     do back <- aws_jni_byte_cursor_from_jbyteArray jArray;
     ret (jArray, back)) w
    = Done (Z.pos (w_next w), native_data) w1
    /\ w_jheap w1 = <[Z.pos (w_next w) := JByteArray native_data]> (w_jheap w)
    /\ w_trace w1 = w_trace w.
Proof.
  unfold aws_jni_byte_cursor_from_jbyteArray. run.
  rewrite lookup_insert_eq. cbn.
  eexists. split; [reflexivity|]. split; reflexivity.
Qed.

(** Reading a Java array of [Header] objects yields their names and
    values, in order, and leaves the world alone. *)
Lemma read_java_headers_spec (elems : list Z) :
  forall (hs : list aws_http_header) (w : World),
  array_holds (w_jheap w) elems hs = true ->
  read_java_headers elems w = Done hs w.
Proof.
  induction elems as [|r elems IH]; intros [|h hs] w H; cbn in H;
    try discriminate; [reflexivity|].
  apply andb_prop in H. destruct H as [Hh Hrest].
  unfold is_header in Hh.
  destruct (w_jheap w !! r) as [[| n v | | |]|] eqn:Hr; try discriminate.
  destruct (w_jheap w !! n) as [[dn | | | |]|] eqn:Hn; try discriminate.
  destruct (w_jheap w !! v) as [[dv | | | |]|] eqn:Hv; try discriminate.
  apply andb_prop in Hh. destruct Hh as [Hdn Hdv].
  apply bytes_eqb_eq in Hdn. apply bytes_eqb_eq in Hdv. subst dn dv.
  cbn [read_java_headers]. unfold aws_jni_byte_cursor_from_jbyteArray. run.
  rewrite Hr. cbn. rewrite Hn. cbn.
  rewrite Hv. cbn. rewrite (IH hs w Hrest). cbn.
  destruct h; reflexivity.
Qed.

(** ** Submitting a request *)

(** X10.  An execute-request call on a live connection with a listener, the
    allocator giving: one request context is acquired, it refers to the
    connection and to a global reference to the listener, and one request
    is handed to aws-c-http, carrying the method, the target, the headers of
    the Java array in order, and the context as user data. *)
Theorem execute_request_submits
    (w : World) (jni_connection : Z) (jni_method jni_uri : list byte)
    (jni_headers jni_callback_handler : Z) (c : http_jni_connection)
    (elems : list Z) (hs : list aws_http_header) :
  jni_connection <> 0 -> w_conns w !! jni_connection = Some c ->
  jni_callback_handler <> 0 ->
  Forall (eq true) (w_oracle w) ->
  w_jheap w !! jni_headers = Some (JObjectArray elems) ->
  array_holds (w_jheap w) elems hs = true ->
  exists w1 rc o,
    httpConnectionExecuteRequest jni_connection jni_method jni_uri
      jni_headers jni_callback_handler w = Done tt w1
    /\ w_exception w1 = w_exception w
    /\ w_callbacks w1 !! Z.pos (w_next w) = Some rc
    /\ connection rc = jni_connection
    /\ jni_http_callback_handler rc = jni_callback_handler
    /\ w_trace w1
       = w_trace w
         ++ [EvMemAcquire (Z.pos (w_next w));
             EvAttachCurrentThread (jvm c);
             EvNewGlobalRef jni_callback_handler;
             EvGetStringUTFChars jni_method;
             EvGetStringUTFChars jni_uri;
             EvHttpStreamNewClientRequest o]
    /\ ro_method o = jni_method
    /\ ro_uri o = jni_uri
    /\ ro_header_array o = hs
    /\ ro_user_data o = Z.pos (w_next w).
Proof.
  intros Hnz Hlive Hh Hor Harr Hholds.
  unfold httpConnectionExecuteRequest, jni_http_request_async_callback_new.
  destruct (Z.eqb_spec jni_connection 0); [contradiction|].
  destruct (Z.eqb_spec jni_callback_handler 0); [contradiction|].
  autounfold with bridge. cbn -[oracle_next]. oracle_step.
  destruct (Z.eqb_spec jni_connection 0); [contradiction|].
  rewrite Hlive. cbn.
  destruct (Z.eqb_spec jni_callback_handler 0); [contradiction|]. cbn.
  rewrite lookup_insert_eq. cbn. rewrite Harr. cbn.
  match goal with
  | |- context [read_java_headers elems ?w0] =>
      rewrite (read_java_headers_spec elems hs w0) by exact Hholds
  end.
  cbn. rewrite <- !app_assoc. cbn.
  do 3 eexists. split; [reflexivity|]. cbn. rewrite lookup_insert_eq.
  repeat split; reflexivity.
Qed.

(** X11.  When the allocator refuses the request context the call throws and
    does nothing else: no reference to the listener is made and nothing is
    handed to aws-c-http. *)
Theorem execute_request_out_of_memory
    (w : World) (jni_connection : Z) (jni_method jni_uri : list byte)
    (jni_headers jni_callback_handler : Z) (rest : list bool) :
  jni_connection <> 0 -> jni_callback_handler <> 0 ->
  w_oracle w = false :: rest ->
  exists w1,
    httpConnectionExecuteRequest jni_connection jni_method jni_uri
      jni_headers jni_callback_handler w = Done tt w1
    /\ w_exception w1
       = Some "HttpConnection.ExecuteRequest: Unable to allocate handler"%string
    /\ w_trace w1 = w_trace w
    /\ w_callbacks w1 = w_callbacks w
    /\ w_next w1 = w_next w.
Proof.
  intros Hnz Hh Hor.
  unfold httpConnectionExecuteRequest, jni_http_request_async_callback_new.
  destruct (Z.eqb_spec jni_connection 0); [contradiction|].
  destruct (Z.eqb_spec jni_callback_handler 0); [contradiction|].
  destruct w as [t o nx e h c cb M u]. cbn in Hor. subst o. run.
  eexists. split; [reflexivity|]. repeat split; reflexivity.
Qed.

Lemma execute_request_out_of_memory_witness :
  (1 <> 0 /\ 55 <> 0
   /\ w_oracle (set_oracle [false] sample_connection) = false :: []) /\
  exists w1,
    httpConnectionExecuteRequest 1 [] [] 3 55
      (set_oracle [false] sample_connection) = Done tt w1
    /\ w_exception w1
       = Some "HttpConnection.ExecuteRequest: Unable to allocate handler"%string
    /\ w_trace w1 = w_trace (set_oracle [false] sample_connection)
    /\ w_callbacks w1 = w_callbacks (set_oracle [false] sample_connection)
    /\ w_next w1 = w_next (set_oracle [false] sample_connection).
Proof.
  split; [repeat split; try lia; reflexivity|].
  apply (execute_request_out_of_memory (set_oracle [false] sample_connection)
           1 [] [] 3 55 [] ltac:(lia) ltac:(lia) eq_refl).
Defined.

Lemma execute_request_submits_witness :
  (1 <> 0
   /\ w_conns sample_java_headers !! 1
      = Some (mk_http_jni_connection 0 0 0 the_java_vm 5 false)
   /\ 55 <> 0
   /\ Forall (eq true) (w_oracle sample_java_headers)
   /\ w_jheap sample_java_headers !! 5 = Some (JObjectArray [4])
   /\ array_holds (w_jheap sample_java_headers) [4] [x_test_header] = true) /\
  exists w1 rc o,
    httpConnectionExecuteRequest 1 [] [] 5 55 sample_java_headers = Done tt w1
    /\ w_exception w1 = w_exception sample_java_headers
    /\ w_callbacks w1 !! Z.pos (w_next sample_java_headers) = Some rc
    /\ connection rc = 1
    /\ jni_http_callback_handler rc = 55
    /\ w_trace w1
       = w_trace sample_java_headers
         ++ [EvMemAcquire (Z.pos (w_next sample_java_headers));
             EvAttachCurrentThread (jvm (mk_http_jni_connection 0 0 0 the_java_vm 5 false));
             EvNewGlobalRef 55;
             EvGetStringUTFChars [];
             EvGetStringUTFChars [];
             EvHttpStreamNewClientRequest o]
    /\ ro_method o = []
    /\ ro_uri o = []
    /\ ro_header_array o = [x_test_header]
    /\ ro_user_data o = Z.pos (w_next sample_java_headers).
Proof.
  assert (H1 : w_conns sample_java_headers !! 1
               = Some (mk_http_jni_connection 0 0 0 the_java_vm 5 false))
    by (vm_compute; reflexivity).
  assert (H2 : Forall (eq true) (w_oracle sample_java_headers))
    by (vm_compute; constructor).
  assert (H3 : w_jheap sample_java_headers !! 5 = Some (JObjectArray [4]))
    by (vm_compute; reflexivity).
  assert (H4 : array_holds (w_jheap sample_java_headers) [4] [x_test_header]
               = true) by (vm_compute; reflexivity).
  split; [repeat split; try lia; assumption|].
  apply (execute_request_submits sample_java_headers 1 [] [] 5 55 _ [4]
           [x_test_header] ltac:(lia) H1 ltac:(lia) H2 H3 H4).
Defined.

(** ** What the stream callbacks leave behind *)

Lemma give_backs_app (t1 t2 : list event) :
  give_backs (t1 ++ t2) = give_backs t1 ++ give_backs t2.
Proof. apply List.filter_app. Qed.

Lemma invoke_keeps_request
    (w : World) (user_data : Z) (cb0 : stream_callback)
    (cb : http_request_jni_async_callback) (conn : http_jni_connection) :
  user_data <> 0 -> w_callbacks w !! user_data = Some cb ->
  connection cb <> 0 -> w_conns w !! connection cb = Some conn ->
  exists w' suffix,
    invoke user_data cb0 w = Done tt w'
    /\ w_trace w' = w_trace w ++ suffix
    /\ give_backs suffix = []
    /\ w_callbacks w' = w_callbacks w
    /\ w_conns w' = w_conns w.
Proof.
  intros Hcb Hlcb Hconn Hlconn.
  destruct cb0 as [s hs|s b|s d|s e]; cbn [invoke].
  - destruct (s_on_incoming_headers_fn_spec w s hs user_data cb conn
                Hcb Hlcb Hconn Hlconn) as (h' & n' & Heq & _ & _).
    rewrite Heq. do 2 eexists. split; [reflexivity|]. cbn.
    split; [reflexivity|].
    destruct (get_status_err s =? 0); repeat split; reflexivity.
  - unfold s_on_incoming_header_block_done_fn. run.
    destruct (Z.eqb_spec user_data 0); [contradiction|]. rewrite Hlcb. cbn.
    destruct (Z.eqb_spec (connection cb) 0); [contradiction|]. rewrite Hlconn. cbn.
    do 2 eexists. split; [reflexivity|]. cbn. rewrite <- app_assoc.
    repeat split; reflexivity.
  - unfold s_on_incoming_body_fn. run.
    destruct (Z.eqb_spec user_data 0); [contradiction|]. rewrite Hlcb. cbn.
    destruct (Z.eqb_spec (connection cb) 0); [contradiction|]. rewrite Hlconn. cbn.
    do 2 eexists. split; [reflexivity|]. cbn. rewrite <- app_assoc.
    repeat split; reflexivity.
  - unfold s_on_stream_complete_fn. run.
    destruct (Z.eqb_spec user_data 0); [contradiction|]. rewrite Hlcb. cbn.
    destruct (Z.eqb_spec (connection cb) 0); [contradiction|]. rewrite Hlconn. cbn.
    do 2 eexists. split; [reflexivity|]. cbn. rewrite <- app_assoc.
    repeat split; reflexivity.
Qed.

(** X12.  Whatever callbacks a stream delivers, its completion included, the
    bridge gives nothing back while serving them: no block is released and
    no global reference deleted.  The request context stays acquired, and
    with it the reference to the listener. *)
Theorem stream_callbacks_free_nothing
    (user_data : Z) (cbs : list stream_callback)
    (cb : http_request_jni_async_callback) (conn : http_jni_connection)
    (w : World) :
  user_data <> 0 -> w_callbacks w !! user_data = Some cb ->
  connection cb <> 0 -> w_conns w !! connection cb = Some conn ->
  exists w' suffix,
    invoke_all user_data cbs w = Done tt w'
    /\ w_trace w' = w_trace w ++ suffix
    /\ give_backs suffix = []
    /\ w_callbacks w' !! user_data = Some cb
    /\ w_callbacks w' = w_callbacks w
    /\ w_conns w' = w_conns w.
Proof.
  revert w. induction cbs as [|cb0 rest IH]; intros w Hcb Hlcb Hconn Hlconn.
  - exists w, []. cbn. rewrite app_nil_r. repeat split. exact Hlcb.
  - destruct (invoke_keeps_request w user_data cb0 cb conn Hcb Hlcb Hconn
                Hlconn) as (w1 & s1 & Heq & Htr & Hg & Hcbs & Hcs).
    destruct (IH w1 Hcb ltac:(rewrite Hcbs; exact Hlcb) Hconn
                 ltac:(rewrite Hcs; exact Hlconn))
      as (w' & s2 & Heq' & Htr' & Hg' & Hl' & Hcbs' & Hcs').
    exists w', (s1 ++ s2). cbn [invoke_all bind]. rewrite Heq.
    split; [exact Heq'|].
    split; [rewrite Htr', Htr, <- app_assoc; reflexivity|].
    split; [rewrite give_backs_app, Hg, Hg'; reflexivity|].
    split; [exact Hl'|].
    split; [rewrite Hcbs'; exact Hcbs | rewrite Hcs'; exact Hcs].
Qed.

Lemma stream_callbacks_free_nothing_witness :
  (2 <> 0
   /\ w_callbacks sample_request !! 2
      = Some (mk_http_request_jni_async_callback 1 55 0)
   /\ 1 <> 0
   /\ w_conns sample_request !! 1
      = Some (mk_http_jni_connection 0 0 0 the_java_vm 5 false)) /\
  exists w' suffix,
    invoke_all 2
      [on_response_headers (mk_aws_http_stream 0 200) [x_test_header];
       on_response_header_block_done (mk_aws_http_stream 0 200) false;
       on_complete (mk_aws_http_stream 0 200) 0] sample_request
    = Done tt w'
    /\ w_trace w' = w_trace sample_request ++ suffix
    /\ give_backs suffix = []
    /\ w_callbacks w' !! 2
       = Some (mk_http_request_jni_async_callback 1 55 0)
    /\ w_callbacks w' = w_callbacks sample_request
    /\ w_conns w' = w_conns sample_request.
Proof.
  assert (H1 : w_callbacks sample_request !! 2
               = Some (mk_http_request_jni_async_callback 1 55 0))
    by (vm_compute; reflexivity).
  assert (H2 : w_conns sample_request !! 1
               = Some (mk_http_jni_connection 0 0 0 the_java_vm 5 false))
    by (vm_compute; reflexivity).
  split; [repeat split; try lia; assumption|].
  apply (stream_callbacks_free_nothing 2 _ _ _ sample_request
           ltac:(lia) H1 ltac:(cbn; lia) H2).
Defined.

Lemma stream_complete_terminal_when_status_known_witness :
  (2 <> 0
   /\ w_callbacks sample_request !! 2
      = Some (mk_http_request_jni_async_callback 1 55 0)
   /\ 1 <> 0
   /\ w_conns sample_request !! 1
      = Some (mk_http_jni_connection 0 0 0 the_java_vm 5 false)
   /\ forallb status_known
        [on_response_headers (mk_aws_http_stream 0 200) [x_test_header];
         on_response_header_block_done (mk_aws_http_stream 0 200) true;
         on_response_body (mk_aws_http_stream 0 200) []] = true
   /\ forallb (fun c0 => negb (is_on_complete c0))
        [on_response_headers (mk_aws_http_stream 0 200) [x_test_header];
         on_response_header_block_done (mk_aws_http_stream 0 200) true;
         on_response_body (mk_aws_http_stream 0 200) []] = true) /\
  exists w' calls,
    invoke_all 2
      ([on_response_headers (mk_aws_http_stream 0 200) [x_test_header];
        on_response_header_block_done (mk_aws_http_stream 0 200) true;
        on_response_body (mk_aws_http_stream 0 200) []]
       ++ [on_complete (mk_aws_http_stream 0 200) 0]) sample_request
    = Done tt w'
    /\ java_calls (w_trace w') = java_calls (w_trace sample_request) ++ calls
    /\ Forall2 (fun c0 c => answers 55 c0 c = true)
         ([on_response_headers (mk_aws_http_stream 0 200) [x_test_header];
           on_response_header_block_done (mk_aws_http_stream 0 200) true;
           on_response_body (mk_aws_http_stream 0 200) []]
          ++ [on_complete (mk_aws_http_stream 0 200) 0]) calls
    /\ count_stream_complete calls = 1%nat
    /\ complete_is_terminal calls = true
    /\ last calls = Some (onResponseComplete 55 0).
Proof.
  assert (H1 : w_callbacks sample_request !! 2
               = Some (mk_http_request_jni_async_callback 1 55 0))
    by (vm_compute; reflexivity).
  assert (H2 : w_conns sample_request !! 1
               = Some (mk_http_jni_connection 0 0 0 the_java_vm 5 false))
    by (vm_compute; reflexivity).
  split; [repeat split; try lia; assumption|].
  apply (stream_complete_terminal_when_status_known sample_request 2
           [on_response_headers (mk_aws_http_stream 0 200) [x_test_header];
            on_response_header_block_done (mk_aws_http_stream 0 200) true;
            on_response_body (mk_aws_http_stream 0 200) []]
           (mk_aws_http_stream 0 200) 0 _ _
           ltac:(lia) H1 ltac:(cbn; lia) H2 eq_refl eq_refl).
Defined.

(** ** Pool construction, exactly *)

(** X16.  Unlike the pairs' allocations and unlike the connection's, the
    allocation of the manager is not checked: when the allocator refuses it,
    pool creation goes on to [aws_mutex_init(&jni_conn_manager->rw_lock)]
    with the null manager, and [rw_lock] being the first member the mutex to
    initialise lies at [NULL].  The run ends there: no exception is raised
    and no fatal assertion reached, no global reference is made, no manager
    is registered, and TLS options initialised from a context are not
    cleaned up. *)
Theorem manager_allocation_unchecked
    (w : World)
    (conn_manager_jobject jni_client_bootstrap jni_socket_options jni_tls_ctx : Z)
    (jni_buf_size jni_window_size : Z) (jni_endpoint : list byte)
    (jni_port jni_max_conns : Z) (rest : list bool) :
  jni_client_bootstrap <> 0 -> jni_socket_options <> 0 ->
  1 <= jni_port <= 65535 -> 0 < jni_window_size -> 0 < jni_max_conns ->
  w_oracle w = false :: rest ->
  httpConnectionManagerNew conn_manager_jobject jni_client_bootstrap
    jni_socket_options jni_tls_ctx jni_buf_size jni_window_size jni_endpoint
    jni_port jni_max_conns w
  = Segv (set_oracle rest
            (set_trace
               (w_trace w
                ++ [EvGetStringUTFChars jni_endpoint]
                ++ (if jni_tls_ctx =? 0 then []
                    else [EvTlsInitFromCtx jni_tls_ctx;
                          EvTlsSetServerName jni_endpoint])) w)).
Proof.
  intros Hb Hs Hp Hw Hm Hor. unfold httpConnectionManagerNew.
  destruct (Z.eqb_spec jni_client_bootstrap 0); [contradiction|].
  destruct (Z.eqb_spec jni_socket_options 0); [contradiction|].
  destruct (Z.leb_spec jni_port 0); [lia|].
  destruct (Z.ltb_spec 65535 jni_port); [lia|].
  destruct (Z.leb_spec jni_window_size 0); [lia|].
  destruct (Z.leb_spec jni_max_conns 0); [lia|].
  destruct w as [t o nx e h c cb M u]. cbn in Hor. subst o. run.
  destruct (jni_tls_ctx =? 0); cbn; rewrite <- ?app_assoc; reflexivity.
Qed.

Lemma manager_allocation_unchecked_witness :
  (7 <> 0 /\ 8 <> 0 /\ 1 <= 443 <= 65535 /\ 0 < 16 /\ 0 < 2
   /\ w_oracle (set_oracle [false] world0) = false :: []) /\
  httpConnectionManagerNew 50 7 8 9 1024 16 [] 443 2
    (set_oracle [false] world0)
  = Segv (set_oracle []
            (set_trace
               (w_trace (set_oracle [false] world0)
                ++ [EvGetStringUTFChars []]
                ++ (if 9 =? 0 then []
                    else [EvTlsInitFromCtx 9; EvTlsSetServerName []]))
               (set_oracle [false] world0))).
Proof.
  split; [repeat split; try lia|].
  apply (manager_allocation_unchecked (set_oracle [false] world0)
           50 7 8 9 1024 16 [] 443 2 []); try lia; reflexivity.
Defined.

(** X17.  Pool creation hands aws-c-http the endpoint, the port, the window
    size, the connection count and itself as the shutdown callback's user
    data, and keeps the native manager it gets in its struct.  TLS options
    go along exactly when a TLS context was supplied, whatever the port. *)
Theorem manager_new_options
    (w : World)
    (conn_manager_jobject jni_client_bootstrap jni_socket_options jni_tls_ctx : Z)
    (jni_buf_size jni_window_size : Z) (jni_endpoint : list byte)
    (jni_port jni_max_conns : Z) :
  jni_client_bootstrap <> 0 -> jni_socket_options <> 0 ->
  1 <= jni_port <= 65535 -> 0 < jni_window_size < 2 ^ 31 ->
  0 < jni_max_conns < 2 ^ 31 ->
  Forall (eq true) (w_oracle w) ->
  exists handle w1 m o suffix,
    httpConnectionManagerNew conn_manager_jobject jni_client_bootstrap
      jni_socket_options jni_tls_ctx jni_buf_size jni_window_size jni_endpoint
      jni_port jni_max_conns w = Done handle w1
    /\ w_managers w1 !! handle = Some m
    /\ w_trace w1 = w_trace w ++ suffix
    /\ In (EvConnManagerNew o (native_conn_manager m)) suffix
    /\ count_events (fun e => match e with EvConnManagerNew _ _ => true
                                         | _ => false end) suffix = 1%nat
    /\ native_conn_manager m <> 0
    /\ java_conn_manager m = conn_manager_jobject
    /\ mo_bootstrap o = jni_client_bootstrap
    /\ mo_socket_options o = jni_socket_options
    /\ mo_host o = jni_endpoint
    /\ mo_port o = jni_port
    /\ mo_initial_window_size o = jni_window_size
    /\ mo_max_connections o = jni_max_conns
    /\ mo_shutdown_complete_user_data o = handle
    /\ (mo_tls_connection_options o = None <-> jni_tls_ctx = 0)
    /\ (In (EvTlsInitFromCtx jni_tls_ctx) suffix <-> jni_tls_ctx <> 0)
    /\ java_calls suffix = [].
Proof.
  intros Hb Hs Hp Hw Hm Hor.
  destruct (manager_new_exact w conn_manager_jobject jni_client_bootstrap
              jni_socket_options jni_tls_ctx jni_buf_size jni_window_size
              jni_endpoint jni_port jni_max_conns Hb Hs Hp ltac:(lia)
              ltac:(lia) Hor)
    as (w1 & ps & native & Heq & Hlive & Hlen & Hnat & Htr & _).
  assert (Hnone : forall l, java_calls (alloc_events l) = []).
  { induction l as [|p l IH]; [reflexivity | exact IH]. }
  assert (Hcnt : forall l,
            count_events (fun e => match e with EvConnManagerNew _ _ => true
                                              | _ => false end)
                         (alloc_events l) = 0%nat).
  { induction l as [|p l IH]; [reflexivity|].
    cbn [alloc_events flat_map app]. count. exact IH. }
  assert (Hnin : forall l, ~ In (EvTlsInitFromCtx jni_tls_ctx) (alloc_events l)).
  { induction l as [|p l IH]; [intros []|].
    cbn [alloc_events flat_map app]. intros [H|[H|[H|H]]];
      try discriminate. exact (IH H). }
  assert (Hport : to_uint16 jni_port = jni_port).
  { unfold to_uint16. apply Z.mod_small. change (2 ^ 16) with 65536. lia. }
  assert (Hwin : to_size_t jni_window_size = jni_window_size).
  { apply to_size_t_small. change (2 ^ 64) with 18446744073709551616.
    change (2 ^ 31) with 2147483648 in Hw. lia. }
  assert (Hmax : to_size_t jni_max_conns = jni_max_conns).
  { apply to_size_t_small. change (2 ^ 64) with 18446744073709551616.
    change (2 ^ 31) with 2147483648 in Hm. lia. }
  destruct (Z.eqb_spec jni_tls_ctx 0) as [E|E];
    (do 5 eexists; split; [exact Heq|]; split; [exact Hlive|];
     split; [exact Htr|]).
  - split; [cbn; repeat right; apply in_or_app; right; left; reflexivity|].
    split; [count; rewrite Hcnt; reflexivity|].
    split; [exact Hnat|]. split; [reflexivity|]. split; [reflexivity|].
    split; [reflexivity|]. split; [reflexivity|]. split; [exact Hport|].
    split; [exact Hwin|]. split; [exact Hmax|]. split; [reflexivity|].
    split; [split; [intros _; exact E | reflexivity]|].
    split.
    + split; [|intros; contradiction]. intros H. exfalso. revert H. cbn.
      intros [H|[H|[H|[H|[H|H]]]]]; try discriminate.
      apply in_app_or in H. destruct H as [H|H]; [exact (Hnin _ H)|].
      destruct H as [H|[H|H]]; try discriminate; contradiction.
    + cbn. rewrite (java_calls_app (alloc_events _)), Hnone. reflexivity.
  - split; [cbn; repeat right; apply in_or_app; right; left; reflexivity|].
    split; [count; rewrite Hcnt; reflexivity|].
    split; [exact Hnat|]. split; [reflexivity|]. split; [reflexivity|].
    split; [reflexivity|]. split; [reflexivity|]. split; [exact Hport|].
    split; [exact Hwin|]. split; [exact Hmax|]. split; [reflexivity|].
    split; [split; [discriminate | intros; contradiction]|].
    split.
    + split; [intros _; exact E|]. intros _. cbn. right. left. reflexivity.
    + cbn. rewrite (java_calls_app (alloc_events _)), Hnone. reflexivity.
Qed.

Lemma manager_new_options_witness :
  (7 <> 0 /\ 8 <> 0 /\ 1 <= 443 <= 65535 /\ 0 < 16 < 2 ^ 31
   /\ 0 < 2 < 2 ^ 31 /\ Forall (eq true) (w_oracle world0)) /\
  exists handle w1 m o suffix,
    httpConnectionManagerNew 50 7 8 9 1024 16 [] 443 2 world0 = Done handle w1
    /\ w_managers w1 !! handle = Some m
    /\ w_trace w1 = w_trace world0 ++ suffix
    /\ In (EvConnManagerNew o (native_conn_manager m)) suffix
    /\ count_events (fun e => match e with EvConnManagerNew _ _ => true
                                         | _ => false end) suffix = 1%nat
    /\ native_conn_manager m <> 0
    /\ java_conn_manager m = 50
    /\ mo_bootstrap o = 7
    /\ mo_socket_options o = 8
    /\ mo_host o = []
    /\ mo_port o = 443
    /\ mo_initial_window_size o = 16
    /\ mo_max_connections o = 2
    /\ mo_shutdown_complete_user_data o = handle
    /\ (mo_tls_connection_options o = None <-> 9 = 0)
    /\ (In (EvTlsInitFromCtx 9) suffix <-> 9 <> 0)
    /\ java_calls suffix = [].
Proof.
  split; [repeat split; try lia; constructor|].
  apply (manager_new_options world0 50 7 8 9 1024 16 [] 443 2);
    try lia; constructor.
Defined.

(** ** The pool's shutdown against its construction *)








(** ** Using the pool *)

(** X20.  Acquire looks the native manager up in the handle's struct and asks
    it for a connection, with the handle as the callback's user data; the
    Java object it is given plays no part.  Release-connection does not
    look anything up: it passes its first argument on as the native
    manager, whether or not a manager lives there. *)
Theorem acquire_and_release_connection_forwarding
    (w : World) (conn_manager_jobject jni_conn_manager_ptr : Z)
    (m : jni_conn_manager) (a jni_conn : Z) :
  jni_conn_manager_ptr <> 0 ->
  w_managers w !! jni_conn_manager_ptr = Some m ->
  a <> 0 -> jni_conn <> 0 ->
  httpConnectionManagerAcquireConnection conn_manager_jobject
    jni_conn_manager_ptr w
  = Done tt (set_trace
               (w_trace w
                ++ [EvConnManagerAcquireConnection (native_conn_manager m)
                      jni_conn_manager_ptr]) w)
  /\ httpConnectionManagerReleaseConnection a jni_conn w
     = Done tt (set_trace
                  (w_trace w ++ [EvConnManagerReleaseConnection a jni_conn]) w).
Proof.
  intros Hnz Hlive Ha Hc.
  unfold httpConnectionManagerAcquireConnection,
    httpConnectionManagerReleaseConnection. run.
  destruct (Z.eqb_spec jni_conn_manager_ptr 0); [contradiction|].
  destruct (Z.eqb_spec a 0); [contradiction|].
  destruct (Z.eqb_spec jni_conn 0); [contradiction|].
  cbn. rewrite Hlive. cbn. split; reflexivity.
Qed.

Lemma acquire_and_release_connection_forwarding_witness :
  (1 <> 0
   /\ w_managers sample_pool !! 1
      = Some (mk_jni_conn_manager the_java_vm 50 6 2 1024
                [mk_jni_byte_buf_pair 1024 5 44; mk_jni_byte_buf_pair 1024 3 42])
   /\ 1 <> 0 /\ 77 <> 0) /\
  httpConnectionManagerAcquireConnection 50 1 sample_pool
  = Done tt (set_trace
               (w_trace sample_pool
                ++ [EvConnManagerAcquireConnection 6 1]) sample_pool)
  /\ httpConnectionManagerReleaseConnection 1 77 sample_pool
     = Done tt (set_trace
                  (w_trace sample_pool
                   ++ [EvConnManagerReleaseConnection 1 77]) sample_pool).
Proof.
  assert (H : w_managers sample_pool !! 1
              = Some (mk_jni_conn_manager the_java_vm 50 6 2 1024
                        [mk_jni_byte_buf_pair 1024 5 44;
                         mk_jni_byte_buf_pair 1024 3 42]))
    by (vm_compute; reflexivity).
  split; [repeat split; try lia; exact H|].
  apply (acquire_and_release_connection_forwarding sample_pool 50 1 _ 1 77
           ltac:(lia) H ltac:(lia) ltac:(lia)).
Defined.

(** X21.  Releasing the pool hands the native manager to
    [aws_http_connection_manager_release] between lock and unlock, and
    forgets it.  Nothing guards the handle afterwards: a second release and
    an acquire go through without an exception and pass [NULL] to
    aws-c-http. *)
Theorem release_then_use
    (w : World) (conn_manager_jobject jni_conn_manager_ptr : Z)
    (m : jni_conn_manager) :
  jni_conn_manager_ptr <> 0 ->
  w_managers w !! jni_conn_manager_ptr = Some m ->
  exists w1 w2 w3,
    httpConnectionManagerRelease jni_conn_manager_ptr w = Done tt w1
    /\ httpConnectionManagerRelease jni_conn_manager_ptr w1 = Done tt w2
    /\ httpConnectionManagerAcquireConnection conn_manager_jobject
         jni_conn_manager_ptr w1 = Done tt w3
    /\ w_trace w1
       = w_trace w
         ++ [EvMutexLock jni_conn_manager_ptr;
             EvConnManagerRelease (native_conn_manager m);
             EvMutexUnlock jni_conn_manager_ptr]
    /\ w_managers w1 !! jni_conn_manager_ptr
       = Some (set_native_conn_manager 0 m)
    /\ w_trace w2
       = w_trace w1
         ++ [EvMutexLock jni_conn_manager_ptr;
             EvConnManagerRelease 0;
             EvMutexUnlock jni_conn_manager_ptr]
    /\ w_trace w3
       = w_trace w1
         ++ [EvConnManagerAcquireConnection 0 jni_conn_manager_ptr]
    /\ w_exception w1 = w_exception w
    /\ w_exception w2 = w_exception w
    /\ w_exception w3 = w_exception w.
Proof.
  intros Hnz Hlive.
  unfold httpConnectionManagerRelease, httpConnectionManagerAcquireConnection.
  run.
  destruct (Z.eqb_spec jni_conn_manager_ptr 0); [contradiction|].
  cbn. rewrite Hlive. cbn. rewrite ?Hlive. cbn.
  do 3 eexists. split; [reflexivity|]. cbn.
  rewrite !lookup_insert_eq. cbn. rewrite !lookup_insert_eq. cbn.
  rewrite <- !app_assoc. repeat split; reflexivity.
Qed.

Lemma release_then_use_witness :
  (1 <> 0
   /\ w_managers sample_pool !! 1
      = Some (mk_jni_conn_manager the_java_vm 50 6 2 1024
                [mk_jni_byte_buf_pair 1024 5 44; mk_jni_byte_buf_pair 1024 3 42])) /\
  exists w1 w2 w3,
    httpConnectionManagerRelease 1 sample_pool = Done tt w1
    /\ httpConnectionManagerRelease 1 w1 = Done tt w2
    /\ httpConnectionManagerAcquireConnection 50 1 w1 = Done tt w3
    /\ w_trace w1
       = w_trace sample_pool
         ++ [EvMutexLock 1; EvConnManagerRelease 6; EvMutexUnlock 1]
    /\ w_managers w1 !! 1
       = Some (set_native_conn_manager 0
                 (mk_jni_conn_manager the_java_vm 50 6 2 1024
                    [mk_jni_byte_buf_pair 1024 5 44;
                     mk_jni_byte_buf_pair 1024 3 42]))
    /\ w_trace w2
       = w_trace w1
         ++ [EvMutexLock 1; EvConnManagerRelease 0; EvMutexUnlock 1]
    /\ w_trace w3 = w_trace w1 ++ [EvConnManagerAcquireConnection 0 1]
    /\ w_exception w1 = w_exception sample_pool
    /\ w_exception w2 = w_exception sample_pool
    /\ w_exception w3 = w_exception sample_pool.
Proof.
  assert (H : w_managers sample_pool !! 1
              = Some (mk_jni_conn_manager the_java_vm 50 6 2 1024
                        [mk_jni_byte_buf_pair 1024 5 44;
                         mk_jni_byte_buf_pair 1024 3 42]))
    by (vm_compute; reflexivity).
  split; [split; [lia | exact H]|].
  apply (release_then_use sample_pool 50 1 _ ltac:(lia) H).
Defined.

Lemma acquisition_callback_without_lock_witness :
  (1 <> 0
   /\ w_managers sample_pool !! 1
      = Some (mk_jni_conn_manager the_java_vm 50 6 2 1024
                [mk_jni_byte_buf_pair 1024 5 44; mk_jni_byte_buf_pair 1024 3 42])) /\
  exists w' suffix,
    s_on_http_conn_acquisition_callback 77 0 1 sample_pool = Done tt w'
    /\ w_trace w' = w_trace sample_pool ++ suffix
    /\ java_calls suffix = [onConnectionAcquired 50 77 0]
    /\ calls_under_lock [] suffix = [].
Proof.
  assert (H : w_managers sample_pool !! 1
              = Some (mk_jni_conn_manager the_java_vm 50 6 2 1024
                        [mk_jni_byte_buf_pair 1024 5 44;
                         mk_jni_byte_buf_pair 1024 3 42]))
    by (vm_compute; reflexivity).
  split; [split; [lia | exact H]|].
  apply (acquisition_callback_without_lock sample_pool 77 0 1 _ ltac:(lia) H).
Defined.

(** ** The pool's life, its lock and its calls into caller code *)








Lemma to_uint16_jshort_witness :
  is_jshort (-25536) /\
  to_uint16 (-25536) = (if -25536 <? 0 then -25536 + 65536 else -25536)
  /\ (to_uint16 (-25536) = 0 <-> -25536 = 0).
Proof.
  assert (H : is_jshort (-25536)) by (unfold is_jshort; lia).
  split; [exact H|]. apply (to_uint16_jshort (-25536) H).
Defined.

(** ** The connection's life *)

(** X8.  A connection created, set up, closed, shut down and destroyed.  The
    Java connection hears of the setup and of the shutdown, once each and in
    this order; close reaches the native connection that setup delivered;
    destroy gives back exactly what connect took, last taken first, and
    leaves no connection at the handle. *)
Theorem connection_life
    (w : World) (http_conn_jobject jni_client_bootstrap jni_socket_options : Z)
    (jni_tls_ctx : Z) (jni_endpoint : list byte) (jni_port : Z)
    (native setup_error shutdown_error : Z) :
  http_conn_jobject <> 0 ->
  jni_client_bootstrap <> 0 -> jni_socket_options <> 0 ->
  to_uint16 jni_port <> 0 ->
  (use_tls_of_port (to_uint16 jni_port) = true -> jni_tls_ctx <> 0) ->
  Forall (eq true) (w_oracle w) ->
  exists handle w1 w2 w3 w4 w5 t1 t5,
    httpConnectionNew http_conn_jobject jni_client_bootstrap
      jni_socket_options jni_tls_ctx jni_endpoint jni_port w = Done handle w1
    /\ s_on_http_conn_setup native setup_error handle w1 = Done tt w2
    /\ httpConnectionClose handle w2 = Done tt w3
    /\ s_on_http_conn_shutdown native shutdown_error handle w3 = Done tt w4
    /\ httpConnectionDestroy handle w4 = Done tt w5
    /\ w_trace w1 = w_trace w ++ t1
    /\ w_trace w3 = w_trace w2 ++ [EvHttpConnectionClose native]
    /\ w_trace w5 = w_trace w4 ++ t5
    /\ give_backs t5 = rev (omap undo t1)
    /\ java_calls (w_trace w5)
       = java_calls (w_trace w)
         ++ [onConnectionComplete http_conn_jobject setup_error;
             onConnectionShutdown http_conn_jobject shutdown_error]
    /\ w_conns w5 !! handle = None.
Proof.
  intros Ho Hb Hs Hp Ht Hor.
  pose proof (proj2 (Z.eqb_neq _ _) Ho) as Hobj.
  unfold httpConnectionNew, s_on_http_conn_setup, httpConnectionClose,
    s_on_http_conn_shutdown, httpConnectionDestroy.
  destruct (Z.eqb_spec jni_client_bootstrap 0); [contradiction|].
  destruct (Z.eqb_spec jni_socket_options 0); [contradiction|].
  autounfold with bridge. cbn -[oracle_next].
  destruct (Z.eqb_spec (to_uint16 jni_port) 0); [contradiction|].
  destruct (use_tls_of_port (to_uint16 jni_port)) eqn:Htls; cbn -[oracle_next];
    [destruct (Z.eqb_spec jni_tls_ctx 0) as [E|E];
       [exfalso; exact (Ht eq_refl E)|]; cbn -[oracle_next] |];
    oracle_step; rewrite lookup_insert_eq; cbn;
    do 8 eexists;
    do 5 (split;
          [reflexivity
          | repeat (progress (cbn; rewrite ?lookup_insert_eq,
                                ?insert_insert_eq, ?Hobj))]);
    rewrite <- !app_assoc; cbn;
    (split; [reflexivity|]); (split; [reflexivity|]);
    (split; [reflexivity|]); (split; [reflexivity|]);
    (split; [rewrite java_calls_app; reflexivity|]);
    apply lookup_delete_eq.
Qed.

Lemma connection_life_witness :
  (5 <> 0 /\ 7 <> 0 /\ 8 <> 0 /\ to_uint16 443 <> 0
   /\ (use_tls_of_port (to_uint16 443) = true -> 9 <> 0)
   /\ Forall (eq true) (w_oracle world0)) /\
  exists handle w1 w2 w3 w4 w5 t1 t5,
    httpConnectionNew 5 7 8 9 [] 443 world0 = Done handle w1
    /\ s_on_http_conn_setup 77 0 handle w1 = Done tt w2
    /\ httpConnectionClose handle w2 = Done tt w3
    /\ s_on_http_conn_shutdown 77 0 handle w3 = Done tt w4
    /\ httpConnectionDestroy handle w4 = Done tt w5
    /\ w_trace w1 = w_trace world0 ++ t1
    /\ w_trace w3 = w_trace w2 ++ [EvHttpConnectionClose 77]
    /\ w_trace w5 = w_trace w4 ++ t5
    /\ give_backs t5 = rev (omap undo t1)
    /\ java_calls (w_trace w5)
       = java_calls (w_trace world0)
         ++ [onConnectionComplete 5 0; onConnectionShutdown 5 0]
    /\ w_conns w5 !! handle = None.
Proof.
  assert (H3 : to_uint16 443 <> 0) by (vm_compute; discriminate).
  assert (H4 : use_tls_of_port (to_uint16 443) = true -> 9 <> 0)
    by (intros _; lia).
  assert (H5 : Forall (eq true) (w_oracle world0)) by constructor.
  split; [repeat split; try lia; assumption|].
  apply (connection_life world0 5 7 8 9 [] 443 77 0 0
           ltac:(lia) ltac:(lia) ltac:(lia) H3 H4 H5).
Defined.

(** ** The header objects *)

Lemma bytes_eqb_refl (a : list byte) : bytes_eqb a a = true.
Proof.
  induction a as [|x a IH]; [reflexivity|]. cbn.
  rewrite (Byte.byte_dec_lb eq_refl), IH. reflexivity.
Qed.

Lemma s_java_headers_array_from_native_loop_builds
    (header_array : list aws_http_header) :
  forall w : World,
  exists h' n',
    s_java_headers_array_from_native_loop header_array w
    = Done tt (set_next n' (set_jheap h' w))
    /\ (w_next w <= n')%positive
    /\ (forall r : Z, r < Z.pos (w_next w) -> h' !! r = w_jheap w !! r)
    /\ Forall (fun h => exists r : Z,
                 Z.pos (w_next w) <= r
                 /\ is_header h' (header_name h) (header_value h) r = true)
              header_array.
Proof.
  induction header_array as [|h rest IH]; intros w.
  - exists (w_jheap w), (w_next w). destruct w; cbn.
    split; [reflexivity|]. split; [lia|]. split; [reflexivity | constructor].
  - cbn [s_java_headers_array_from_native_loop]. run.
    match goal with
    | |- context [s_java_headers_array_from_native_loop rest ?w0] =>
        destruct (IH w0) as (h' & n' & Heq & Hle & Hold & Hall); rewrite Heq
    end.
    cbn in *. exists h', n'. split; [reflexivity|]. split; [lia|].
    split.
    + intros r Hr. rewrite Hold by lia.
      rewrite !lookup_insert_ne by lia. reflexivity.
    + constructor.
      * exists (Z.pos (w_next w)). split; [lia|]. unfold is_header.
        repeat (rewrite Hold by lia;
                repeat (rewrite lookup_insert; case_decide; try lia);
                cbn -[bytes_eqb]).
        rewrite !bytes_eqb_refl. reflexivity.
      * eapply Forall_impl; [exact Hall|].
        intros h0 (r & Hr & His). exists r. split; [lia | exact His].
Qed.

(** X15.  For every native header the bridge builds a [Header] object whose
    name and value arrays hold the header's bytes; the array it returns has
    one slot per header and refers to none of them. *)
Theorem headers_built_but_not_stored
    (w : World) (callback : Z) (header_array : list aws_http_header)
    (cb : http_request_jni_async_callback) (conn : http_jni_connection) :
  callback <> 0 -> w_callbacks w !! callback = Some cb ->
  connection cb <> 0 -> w_conns w !! connection cb = Some conn ->
  exists w' myArray,
    s_java_headers_array_from_native callback header_array w = Done myArray w'
    /\ w_jheap w' !! myArray
       = Some (JObjectArray (replicate (length header_array) 0))
    /\ Forall (fun h => exists r : Z,
                 r <> 0 /\ r <> myArray
                 /\ is_header (w_jheap w') (header_name h) (header_value h) r
                    = true)
              header_array.
Proof.
  intros Hcb Hlcb Hconn Hlconn.
  unfold s_java_headers_array_from_native. run.
  destruct (Z.eqb_spec callback 0); [contradiction|]. rewrite Hlcb. cbn.
  destruct (Z.eqb_spec (connection cb) 0); [contradiction|]. rewrite Hlconn. cbn.
  match goal with
  | |- context [s_java_headers_array_from_native_loop header_array ?w0] =>
      destruct (s_java_headers_array_from_native_loop_builds header_array w0)
        as (h' & n' & Heq & Hle & Hold & Hall); rewrite Heq
  end.
  cbn in *. do 2 eexists. split; [reflexivity|]. cbn. split.
  - rewrite Hold by lia. apply lookup_insert_eq.
  - eapply Forall_impl; [exact Hall|].
    intros h0 (r & Hr & His). exists r.
    split; [lia|]. split; [lia | exact His].
Qed.

Lemma headers_built_but_not_stored_witness :
  (2 <> 0
   /\ w_callbacks sample_request !! 2
      = Some (mk_http_request_jni_async_callback 1 55 0)
   /\ 1 <> 0
   /\ w_conns sample_request !! 1
      = Some (mk_http_jni_connection 0 0 0 the_java_vm 5 false)) /\
  exists w' myArray,
    s_java_headers_array_from_native 2 [x_test_header] sample_request
    = Done myArray w'
    /\ w_jheap w' !! myArray = Some (JObjectArray (replicate 1%nat 0))
    /\ Forall (fun h => exists r : Z,
                 r <> 0 /\ r <> myArray
                 /\ is_header (w_jheap w') (header_name h) (header_value h) r
                    = true)
              [x_test_header].
Proof.
  assert (H1 : w_callbacks sample_request !! 2
               = Some (mk_http_request_jni_async_callback 1 55 0))
    by (vm_compute; reflexivity).
  assert (H2 : w_conns sample_request !! 1
               = Some (mk_http_jni_connection 0 0 0 the_java_vm 5 false))
    by (vm_compute; reflexivity).
  split; [repeat split; try lia; assumption|].
  apply (headers_built_but_not_stored sample_request 2 [x_test_header] _ _
           ltac:(lia) H1 ltac:(cbn; lia) H2).
Defined.
